(** * Tool adapters and file-transfer helper of the OpenAI-Agents / sandbox examples

    A shallow embedding of the Python functions

    - [execute_code]                 (1-example-basic-tasks.py, lines 38-115)
    - [execute_code_with_network]    (4-example-live-crypto-tracker.py, lines 53-100)
    - [execute_python_analysis]      (5-example-multi-agent-research.py, lines 48-122)
    - [download_file_from_sandbox]   (6-example-data-visualization.py, lines 104-165)
    - [save_result]                  (1-example-basic-tasks.py, lines 119-131)
    - [analyze_data_and_create_chart] (6-example-data-visualization.py, lines 169-404)
    - [print_box] and the chat loop  (2-example-interactive.py, lines 53-63, 153-201)

    together with the properties of their result formatting, their error
    handling and the sentinel-framed base64 channel. *)

From Stdlib Require Import NArith ZArith List Bool Lia String Ascii DecimalString.
From Stdlib.Strings Require Import Byte.
From Stdlib Require Import DecimalZ.
Import ListNotations.

Local Open Scope N_scope.
Local Open Scope list_scope.

(* ================================================================== *)
(** ** Python values *)

(** A Python [str] is a sequence of Unicode code points. *)
Definition str := list N.

(** A Python [bytes] object. *)
Definition bytes := list byte.

(** ASCII literals of the source, as code points. *)
Definition lit (s : string) : str := map N_of_ascii (list_ascii_of_string s).
Arguments lit s%_string.

(** The escape ["\n"]. *)
Definition nl : str := [10].

(** [a == b] on [str]. *)
Fixpoint str_eqb (a b : str) : bool :=
  match a, b with
  | [], [] => true
  | x :: a', y :: b' => (x =? y) && str_eqb a' b'
  | _, _ => false
  end.

(** Truth value of a list ([if output_lines:]). *)
Definition truthy {A} (l : list A) : bool :=
  match l with [] => false | _ :: _ => true end.

(** [sep.join(parts)]. *)
Fixpoint join (sep : str) (parts : list str) : str :=
  match parts with
  | [] => []
  | [p] => p
  | p :: rest => p ++ sep ++ join sep rest
  end.

(** [s.startswith(p)]. *)
Fixpoint startswith (p s : str) : bool :=
  match p, s with
  | [], _ => true
  | _ :: _, [] => false
  | x :: p', y :: s' => (x =? y) && startswith p' s'
  end.

(** [s.find(p)]: the lowest index at which [p] occurs in [s]; [None] stands
    for Python's [-1]. *)
Fixpoint find (p s : str) : option nat :=
  if startswith p s then Some 0%nat
  else match s with
       | [] => None
       | _ :: s' => option_map S (find p s')
       end.

(** [p in s]. *)
Definition contains (p s : str) : bool :=
  match find p s with Some _ => true | None => false end.

(** [s[a:b]] for non-negative [a] and [b]. *)
Definition slice (a b : nat) (s : str) : str := skipn a (firstn b s).

(** Code points that [str.strip()] removes: the characters for which
    [str.isspace()] holds. *)
Definition isspace (c : N) : bool :=
  ((9 <=? c) && (c <=? 13)) || ((28 <=? c) && (c <=? 32))
  || (c =? 133) || (c =? 160) || (c =? 5760)
  || ((8192 <=? c) && (c <=? 8202))
  || (c =? 8232) || (c =? 8233) || (c =? 8239) || (c =? 8287) || (c =? 12288).

Fixpoint lstrip (s : str) : str :=
  match s with
  | c :: s' => if isspace c then lstrip s' else s
  | [] => []
  end.

Definition rstrip (s : str) : str := rev (lstrip (rev s)).

(** [s.strip()]. *)
Definition strip (s : str) : str := rstrip (lstrip s).

(** [str(n)] for an [int]. *)
Definition str_of_int (n : Z) : str := lit (NilZero.string_of_int (Z.to_int n)).

(* ================================================================== *)
(** ** Exceptions and effects *)

(** An instance of Python's [Exception]: its class and [str(e)]. *)
Record PyException := mkException { exc_class : string; exc_str : str }.

(** An instance of [BaseException] that is not an [Exception]:
    [KeyboardInterrupt], [SystemExit], [GeneratorExit] and their like.  The
    handlers of the modelled functions are all [except Exception] and do not
    catch these. *)
Record PySignal := mkSignal { sig_class : string; sig_str : str }.

(** How a call ends: it returns, it raises an [Exception], or it raises a
    signal outside [Exception]. *)
Inductive result (A : Type) : Type :=
| Ok (a : A)
| Raise (e : PyException)
| Abort (s : PySignal).
Arguments Ok {A} a.
Arguments Raise {A} e.
Arguments Abort {A} s.

(** Computations over a world [W]: they return or raise, and the world they
    leave behind survives a raise. *)
Definition M (W A : Type) : Type := W -> result A * W.

Definition ret {W A} (a : A) : M W A := fun w => (Ok a, w).

Definition raise {W A} (e : PyException) : M W A := fun w => (Raise e, w).

Definition bind {W A B} (m : M W A) (k : A -> M W B) : M W B :=
  fun w => match m w with
           | (Ok a, w') => k a w'
           | (Raise e, w') => (Raise e, w')
           | (Abort s, w') => (Abort s, w')
           end.

(** [try: body / except Exception as e: handler e].  The clause names
    [Exception]: a signal outside that class passes through it. *)
Definition try_except {W A} (body : M W A) (handler : PyException -> M W A) : M W A :=
  fun w => match body w with
           | (Ok a, w') => (Ok a, w')
           | (Raise e, w') => handler e w'
           | (Abort s, w') => (Abort s, w')
           end.

(** A pure step that may raise. *)
Definition lift {W A} (r : result A) : M W A := fun w => (r, w).

Declare Scope py_scope.
Delimit Scope py_scope with py.
Notation "x <- m ;; k" := (bind m (fun x => k))
  (at level 61, m at next level, right associativity) : py_scope.
Notation "m ;;; k" := (bind m (fun _ => k))
  (at level 61, right associativity) : py_scope.

(* ================================================================== *)
(** ** Data model *)

(** One captured output item of a run. *)
Record OutputItem := mkOutputItem { type : str; data : str }.

(** [result.data] of a remote execute call.  [execution_time_ms] is [None]
    when the attribute is absent. *)
Record ExecutionResult := mkExecutionResult {
  status : str;
  outputs : list OutputItem;
  execution_time_ms : option Z
}.

(** What the functions reach outside themselves: the sandbox client and the
    local file system.  Each of these calls may return, raise an
    [Exception], or end with a signal outside [Exception] (the places where
    the program waits on the outside world are where such a signal is
    modelled). *)
Record Env := mkEnv {
  World : Type;
  (** [cognitora_client.code_interpreter.execute(code, language, networking)] *)
  execute : str -> str -> bool -> M World ExecutionResult;
  (** [os.path.dirname] *)
  os_path_dirname : str -> str;
  (** [os.makedirs(path, exist_ok=True)] *)
  os_makedirs : str -> M World unit;
  (** [with open(path, 'wb') as f: f.write(content)] *)
  open_wb_write : str -> bytes -> M World unit
}.

(** [getattr(result.data, 'execution_time_ms', default)]. *)
Definition getattr_execution_time_ms (r : ExecutionResult) (default : Z) : Z :=
  match execution_time_ms r with Some t => t | None => default end.

(* ================================================================== *)
(** ** The tool adapters *)

Section Adapters.
Context (E : Env).
Local Open Scope py_scope.

(** The [for output_item in result.data.outputs] loop body shared by the
    three adapters: the state is [(output_lines, error_lines)]. *)
Definition collect (acc : list str * list str) (output_item : OutputItem)
  : list str * list str :=
  let '(output_lines, error_lines) := acc in
  if str_eqb (type output_item) (lit "stdout") then
    (output_lines ++ [data output_item], error_lines)
  else if str_eqb (type output_item) (lit "stderr") then
    (output_lines, error_lines ++ [data output_item])
  else acc.

(** [result_parts] as built by lines 102-106 of the basic example (and the
    same lines of the two other adapters). *)
Definition result_parts (r : ExecutionResult) : list str :=
  let '(output_lines, error_lines) := fold_left collect (outputs r) ([], []) in
  (if truthy output_lines then [join nl output_lines] else [])
  ++ (if truthy error_lines then [lit "Errors:" ++ nl ++ join nl error_lines] else []).

Definition is_failure (status : str) : bool :=
  str_eqb status (lit "error") || str_eqb status (lit "failed").

(** 1-example-basic-tasks.py *)
Definition execute_code (code language : str) : M (World E) str :=
  try_except
    (result <- execute E code language false ;;
     let status := status result in
     if is_failure status then
       ret (lit "Execution failed with status: " ++ status)
     else
       let result_parts := result_parts result in
       if truthy result_parts then
         ret (join (nl ++ nl) result_parts)
       else
         let exec_time := getattr_execution_time_ms result 0 in
         ret (lit "Code executed successfully (status: " ++ status
              ++ lit ", execution time: " ++ str_of_int exec_time
              ++ lit "ms) but produced no output."))
    (fun e => ret (lit "Error executing code: " ++ exc_str e)).

(** 4-example-live-crypto-tracker.py *)
Definition execute_code_with_network (code language : str) : M (World E) str :=
  try_except
    (result <- execute E code language true ;;
     let status := status result in
     if is_failure status then
       ret (lit "Execution failed with status: " ++ status)
     else
       let result_parts := result_parts result in
       if truthy result_parts then
         ret (join (nl ++ nl) result_parts)
       else
         ret (lit "Code executed successfully (status: " ++ status
              ++ lit ") but produced no output."))
    (fun e => ret (lit "Error executing code: " ++ exc_str e)).

(** The non-ASCII characters of the analysis adapter's messages. *)
Definition cross_mark : str := [10060].
Definition check_mark : str := [9989].
Definition warning_sign : str := [9888; 65039].

(** 5-example-multi-agent-research.py *)
Definition execute_python_analysis (code : str) : M (World E) str :=
  try_except
    (result <- execute E code (lit "python") false ;;
     let status := status result in
     if is_failure status then
       ret (cross_mark ++ lit " Execution failed with status: " ++ status)
     else
       let result_parts := result_parts result in
       if truthy result_parts then
         ret (check_mark ++ lit " Analysis complete:" ++ nl ++ join nl result_parts)
       else
         ret (warning_sign
              ++ lit " Code executed but no output captured. Make sure to use print() statements!"))
    (fun e => ret (cross_mark ++ lit " Execution failed: " ++ exc_str e)).

End Adapters.

(* ================================================================== *)
(** ** Base64, as the Python standard library computes it *)

(** The alphabet of RFC 4648: the character of a 6-bit value. *)
Definition table_b2a_base64 (v : N) : N :=
  if v <? 26 then 65 + v
  else if v <? 52 then 97 + (v - 26)
  else if v <? 62 then 48 + (v - 52)
  else if v =? 62 then 43
  else 47.

(** The 6-bit value of a character, [None] outside the alphabet. *)
Definition table_a2b_base64 (c : N) : option N :=
  if (65 <=? c) && (c <=? 90) then Some (c - 65)
  else if (97 <=? c) && (c <=? 122) then Some (c - 97 + 26)
  else if (48 <=? c) && (c <=? 57) then Some (c - 48 + 52)
  else if c =? 43 then Some 62
  else if c =? 47 then Some 63
  else None.

(** The padding character ['=']. *)
Definition BASE64_PAD : N := 61.

(** [base64.b64encode(content).decode('utf-8')]: three bytes become four
    characters, a last group of one or two bytes is padded. *)
Fixpoint b64encode (content : bytes) : str :=
  match content with
  | [] => []
  | [a] =>
      let a := Byte.to_N a in
      [table_b2a_base64 (N.shiftr a 2);
       table_b2a_base64 (N.shiftl (N.land a 3) 4);
       BASE64_PAD; BASE64_PAD]
  | [a; b] =>
      let a := Byte.to_N a in
      let b := Byte.to_N b in
      [table_b2a_base64 (N.shiftr a 2);
       table_b2a_base64 (N.lor (N.shiftl (N.land a 3) 4) (N.shiftr b 4));
       table_b2a_base64 (N.shiftl (N.land b 15) 2);
       BASE64_PAD]
  | a :: b :: c :: rest =>
      let a := Byte.to_N a in
      let b := Byte.to_N b in
      let c := Byte.to_N c in
      [table_b2a_base64 (N.shiftr a 2);
       table_b2a_base64 (N.lor (N.shiftl (N.land a 3) 4) (N.shiftr b 4));
       table_b2a_base64 (N.lor (N.shiftl (N.land b 15) 2) (N.shiftr c 6));
       table_b2a_base64 (N.land c 63)]
      ++ b64encode rest
  end.

(** Storing into an [unsigned char]. *)
Definition byte_of_N (n : N) : byte :=
  match Byte.of_N (n mod 256) with Some b => b | None => x00 end.

Definition binascii_Error (msg : str) : PyException :=
  mkException "binascii.Error" msg.

Definition ValueError (msg : str) : PyException :=
  mkException "ValueError" msg.

(** The decoding loop of [binascii.a2b_base64] with [strict_mode] off:
    characters outside the alphabet are skipped; a completed pad sequence
    ends decoding; what is left of an incomplete quad at the end is an error.
    [quad_pos], [leftchar] and [pads] are the loop's variables, [bin_data]
    the bytes written so far. *)
Fixpoint a2b_base64_loop (ascii_data : str) (quad_pos leftchar pads : N)
    (bin_data : bytes) : result bytes :=
  match ascii_data with
  | [] =>
      if quad_pos =? 0 then Ok bin_data
      else if quad_pos =? 1 then
        Raise (binascii_Error
          (lit "Invalid base64-encoded string: number of data characters ("
           ++ str_of_int (Z.of_nat (List.length bin_data / 3 * 4 + 1))
           ++ lit ") cannot be 1 more than a multiple of 4"))
      else Raise (binascii_Error (lit "Incorrect padding"))
  | this_ch :: rest =>
      if this_ch =? BASE64_PAD then
        if 2 <=? quad_pos then
          if 4 <=? quad_pos + (pads + 1) then Ok bin_data
          else a2b_base64_loop rest quad_pos leftchar (pads + 1) bin_data
        else a2b_base64_loop rest quad_pos leftchar pads bin_data
      else
        match table_a2b_base64 this_ch with
        | None => a2b_base64_loop rest quad_pos leftchar pads bin_data
        | Some this_ch =>
            if quad_pos =? 0 then
              a2b_base64_loop rest 1 this_ch 0 bin_data
            else if quad_pos =? 1 then
              a2b_base64_loop rest 2 (N.land this_ch 15) 0
                (bin_data ++ [byte_of_N (N.lor (N.shiftl leftchar 2) (N.shiftr this_ch 4))])
            else if quad_pos =? 2 then
              a2b_base64_loop rest 3 (N.land this_ch 3) 0
                (bin_data ++ [byte_of_N (N.lor (N.shiftl leftchar 4) (N.shiftr this_ch 2))])
            else
              a2b_base64_loop rest 0 0 0
                (bin_data ++ [byte_of_N (N.lor (N.shiftl leftchar 6) this_ch)])
        end
  end.

(** [base64.b64decode(s)] for a [str] argument: the string must be ASCII,
    then [binascii.a2b_base64] decodes it. *)
Definition b64decode (s : str) : result bytes :=
  if forallb (fun c => c <? 128) s then a2b_base64_loop s 0 0 0 []
  else Raise (ValueError (lit "string argument should contain only ASCII characters")).

(* ================================================================== *)
(** ** The file-transfer helper *)

Definition BASE64_START : str := lit "BASE64_START".
Definition BASE64_END : str := lit "BASE64_END".
Definition FILE_NOT_FOUND : str := lit "ERROR: File not found".

(** The double quote and the single quote inside the script text. *)
Definition dq : str := [34].
Definition sq : str := [39].

(** The program sent to the sandbox (lines 118-132), with [filename]
    interpolated twice. *)
Definition download_script (filename : str) : str :=
  nl ++ lit "import base64" ++ nl
  ++ lit "import os" ++ nl
  ++ nl
  ++ lit "# Check if file exists" ++ nl
  ++ lit "if not os.path.exists(" ++ sq ++ filename ++ sq ++ lit "):" ++ nl
  ++ lit "    print(" ++ dq ++ FILE_NOT_FOUND ++ dq ++ lit ")" ++ nl
  ++ lit "else:" ++ nl
  ++ lit "    with open(" ++ sq ++ filename ++ sq ++ lit ", " ++ sq ++ lit "rb" ++ sq
  ++ lit ") as f:" ++ nl
  ++ lit "        content = f.read()" ++ nl
  ++ lit "        encoded = base64.b64encode(content).decode(" ++ sq ++ lit "utf-8" ++ sq
  ++ lit ")" ++ nl
  ++ lit "        print(" ++ dq ++ BASE64_START ++ dq ++ lit ")" ++ nl
  ++ lit "        print(encoded)" ++ nl
  ++ lit "        print(" ++ dq ++ BASE64_END ++ dq ++ lit ")" ++ nl.

(** What the three [print] calls of that program write to standard output
    for a file holding [content]. *)
Definition framed_stdout (content : bytes) : str :=
  BASE64_START ++ nl ++ b64encode content ++ nl ++ BASE64_END ++ nl.

(** [s.index(p)]. *)
Definition index (s p : str) : result nat :=
  match find p s with
  | Some i => Ok i
  | None => Raise (ValueError (lit "substring not found"))
  end.

(** Lines 149-151: the text between the sentinels, stripped. *)
Definition encoded_content (output : str) : result str :=
  match index output BASE64_START with
  | Raise e => Raise e
  | Abort s => Abort s
  | Ok i =>
      let start := (i + List.length BASE64_START)%nat in
      match index output BASE64_END with
      | Raise e => Raise e
      | Abort s => Abort s
      | Ok end_ => Ok (strip (slice start end_ output))
      end
  end.

(** Lines 149-153: extraction and decoding. *)
Definition decoded_content (output : str) : result bytes :=
  match encoded_content output with
  | Raise e => Raise e
  | Abort s => Abort s
  | Ok encoded => b64decode encoded
  end.

Section Download.
Context (E : Env).
Local Open Scope py_scope.

(** The [for output_item in result.data.outputs] loop of lines 138-161; the
    end of the list is the [return False] after the loop. *)
Fixpoint scan_outputs (local_path : str) (items : list OutputItem) : M (World E) bool :=
  match items with
  | [] => ret false
  | output_item :: rest =>
      if str_eqb (type output_item) (lit "stdout") then
        let output := data output_item in
        if contains FILE_NOT_FOUND output then ret false
        else if contains BASE64_START output && contains BASE64_END output then
          decoded <- lift (decoded_content output) ;;
          let d := os_path_dirname E local_path in
          os_makedirs E (if truthy d then d else lit ".") ;;;
          open_wb_write E local_path decoded ;;;
          ret true
        else scan_outputs local_path rest
      else scan_outputs local_path rest
  end.

(** 6-example-data-visualization.py.  The two warnings printed on the
    failure paths are not part of the returned value or of the file system
    and are left out. *)
Definition download_file_from_sandbox (filename local_path : str) : M (World E) bool :=
  try_except
    (result <- execute E (download_script filename) (lit "python") false ;;
     scan_outputs local_path (outputs result))
    (fun e => ret false).

End Download.

(* ================================================================== *)
(** ** A concrete environment: canned sandbox replies, files in memory *)

Module Mem.

(** The local files written so far (latest first) and the directories
    created. *)
Record FS := mkFS { files : list (str * bytes); dirs : list str }.

Definition empty : FS := mkFS [] [].

(** [posixpath.dirname]. *)
Fixpoint rfind_slash (p : str) (pos : nat) (last : nat) : nat :=
  match p with
  | [] => last
  | c :: p' => rfind_slash p' (S pos) (if c =? 47 then S pos else last)
  end.

Fixpoint rstrip_slash_rev (r : str) : str :=
  match r with
  | c :: r' => if c =? 47 then rstrip_slash_rev r' else r
  | [] => []
  end.

Definition dirname (p : str) : str :=
  let head := firstn (rfind_slash p 0 0) p in
  if truthy head && negb (forallb (fun c => c =? 47) head)
  then rev (rstrip_slash_rev (rev head))
  else head.

Definition makedirs (d : str) : M FS unit :=
  fun w => (Ok tt, mkFS (files w) (d :: dirs w)).

(** Opening the empty path fails. *)
Definition write (p : str) (content : bytes) : M FS unit :=
  fun w =>
    if truthy p then (Ok tt, mkFS ((p, content) :: files w) (dirs w))
    else raise (mkException "FileNotFoundError" (lit "[Errno 2] No such file or directory: ''")) w.

(** A sandbox that answers every request with [reply]. *)
Definition env (reply : result ExecutionResult) : Env :=
  mkEnv FS (fun _ _ _ => lift reply) dirname makedirs write.

Definition stdout (s : str) : OutputItem := mkOutputItem (lit "stdout") s.
Definition stderr (s : str) : OutputItem := mkOutputItem (lit "stderr") s.

(** Ctrl-C while the request is under way. *)
Definition keyboard_interrupt : PySignal := mkSignal "KeyboardInterrupt" [].

End Mem.

(* ================================================================== *)
(** ** Vocabulary of the properties *)

Definition is_stdout (i : OutputItem) : bool := str_eqb (type i) (lit "stdout").
Definition is_stderr (i : OutputItem) : bool := str_eqb (type i) (lit "stderr").

(** The data of the stdout items, and of the stderr items, in order. *)
Definition stdout_items (items : list OutputItem) : list str :=
  map data (filter is_stdout items).
Definition stderr_items (items : list OutputItem) : list str :=
  map data (filter is_stderr items).

(** The two text blocks of a reply and their list. *)
Definition blocks (out err : list str) : list str :=
  (if truthy out then [join nl out] else [])
  ++ (if truthy err then [lit "Errors:" ++ nl ++ join nl err] else []).

(** The text of the branch that reports an empty run (line 112). *)
Definition no_output_message (r : ExecutionResult) : str :=
  lit "Code executed successfully (status: " ++ status r
  ++ lit ", execution time: " ++ str_of_int (getattr_execution_time_ms r 0)
  ++ lit "ms) but produced no output.".

Definition non_failing (r : ExecutionResult) : Prop :=
  status r <> lit "error" /\ status r <> lit "failed".

(** An item at which the loop of the helper stops: a stdout item that holds
    the error line or both sentinels. *)
Definition decisive (i : OutputItem) : bool :=
  is_stdout i
  && (contains FILE_NOT_FOUND (data i)
      || (contains BASE64_START (data i) && contains BASE64_END (data i))).

(** An encoded text between the two sentinel lines, followed by [post]. *)
Definition framed (encoded post : str) : str :=
  BASE64_START ++ nl ++ encoded ++ nl ++ BASE64_END ++ post.

(** The directory that the helper creates before it writes (line 156). *)
Definition target_dir (E : Env) (local_path : str) : str :=
  if truthy (os_path_dirname E local_path) then os_path_dirname E local_path else lit ".".

(** Characters that are ASCII, are not the underscore and are not white
    space; the characters of a base64 text are of this kind. *)
Definition plain (c : N) : Prop := c < 128 /\ c <> 95 /\ isspace c = false.

(** The same sandbox, with every reply passed through [g]. *)
Definition map_reply (g : ExecutionResult -> ExecutionResult) (E : Env) : Env :=
  mkEnv (World E)
    (fun code language networking w =>
       match execute E code language networking w with
       | (Ok r, w') => (Ok (g r), w')
       | (Raise e, w') => (Raise e, w')
       | (Abort s, w') => (Abort s, w')
       end)
    (os_path_dirname E) (os_makedirs E) (open_wb_write E).

Definition set_status (s : str) (r : ExecutionResult) : ExecutionResult :=
  mkExecutionResult s (outputs r) (execution_time_ms r).


(* ================================================================== *)
(** ** Further functions of the examples *)

(** The character in front of the confirmation of [save_result]. *)
Definition tick_mark : str := [10003].

(** 1-example-basic-tasks.py, lines 119-131.  Nothing is stored: the reply
    names the file and the number of characters of the content. *)
Definition save_result (filename content : str) : str :=
  tick_mark ++ lit " Results saved to " ++ filename
  ++ lit " (" ++ str_of_int (Z.of_nat (List.length content)) ++ lit " characters)".

(* ================================================================== *)
(** ** Recording what a run does outside itself *)

Inductive Event : Type :=
| Request (code language : str) (networking : bool)
| Makedirs (path : str)
| WriteFile (path : str) (content : bytes).

(** The environment [E] with a log beside its world: every request to the
    sandbox and every file-system step is appended to the log when it is
    made, whether it returns or raises. *)
Definition logged (E : Env) : Env :=
  mkEnv (World E * list Event)
    (fun code language networking wl =>
       let '(r, w') := execute E code language networking (fst wl) in
       (r, (w', snd wl ++ [Request code language networking])))
    (os_path_dirname E)
    (fun d wl =>
       let '(r, w') := os_makedirs E d (fst wl) in
       (r, (w', snd wl ++ [Makedirs d])))
    (fun p content wl =>
       let '(r, w') := open_wb_write E p content (fst wl) in
       (r, (w', snd wl ++ [WriteFile p content]))).

(** The characters the decoder looks at: those of the alphabet and the
    padding character. *)
Definition b64_char (c : N) : bool :=
  match table_a2b_base64 c with
  | Some _ => true
  | None => c =? BASE64_PAD
  end.

(* ================================================================== *)
(** ** The chart tool (6-example-data-visualization.py, lines 169-404) *)

(** [csv_data] inside the generated script: the module variable
    [csv_content] is [None] until the demo has created the data. *)
Definition str_of_csv (csv_content : option str) : str :=
  match csv_content with Some s => s | None => lit "None" end.

(** The head of the generated script (lines 201-232) *)
Definition chart_preamble (csv_content : option str) (chart_type analysis_description : str) : str :=
  join nl
   [
    [];
    lit "import pandas as pd";
    lit "import matplotlib.pyplot as plt";
    lit "import seaborn as sns";
    lit "import numpy as np";
    lit "import io";
    [];
    lit "# Set style for professional charts (use simpler style for faster rendering)";
    lit "plt.style.use('default')";
    lit "sns.set_palette(" ++ dq ++ lit "husl" ++ dq ++ lit ")";
    [];
    lit "# Write CSV data to /tmp directory (has write permissions)";
    lit "import io";
    lit "csv_content = '''" ++ (str_of_csv csv_content) ++ lit "'''";
    lit "# Use StringIO to ensure proper parsing";
    lit "df = pd.read_csv(io.StringIO(csv_content))";
    [];
    lit "print(" ++ dq ++ lit "=" ++ dq ++ lit " * 60)";
    lit "print(" ++ dq ++ lit "DATA ANALYSIS: " ++ analysis_description ++ dq ++ lit ")";
    lit "print(" ++ dq ++ lit "=" ++ dq ++ lit " * 60)";
    lit "print(f" ++ dq ++ lit "\nDataset Shape: {df.shape[0]} rows, {df.shape[1]} columns"
      ++ dq ++ lit ")";
    lit "print(f" ++ dq ++ lit "\nColumns: {', '.join(df.columns.tolist())}" ++ dq ++ lit ")";
    lit "print(f" ++ dq ++ lit "\nFirst few rows:" ++ dq ++ lit ")";
    lit "print(df.head())";
    [];
    lit "# Analysis description: " ++ analysis_description;
    lit "# Chart type: " ++ chart_type;
    [];
    lit "# Create the visualization based on chart type";
    lit "plt.figure(figsize=(10, 6), dpi=100)  # Reduced size and DPI for faster rendering";
    [];
    []
   ].

(** The chart of revenue by category (lines 236-261) *)
Definition chart_revenue_by_category : str :=
  join nl
   [
    [];
    lit "# Revenue by Category Analysis";
    lit "revenue_by_category = df.groupby('Category')['Revenue'].sum().sort_values(ascending=False)";
    lit "print(f" ++ dq ++ lit "\nRevenue by Category:" ++ dq ++ lit ")";
    lit "for category, revenue in revenue_by_category.items():";
    lit "    print(f" ++ dq ++ lit "  {category}: ${revenue:,.2f}" ++ dq ++ lit ")";
    [];
    lit "# Create bar chart";
    lit "colors = sns.color_palette(" ++ dq ++ lit "husl" ++ dq
      ++ lit ", len(revenue_by_category))";
    lit "bars = plt.bar(revenue_by_category.index, revenue_by_category.values, color=colors, edgecolor='black', linewidth=1.5)";
    lit "plt.xlabel('Category', fontsize=14, fontweight='bold')";
    lit "plt.ylabel('Total Revenue ($)', fontsize=14, fontweight='bold')";
    lit "plt.title('Total Revenue by Product Category', fontsize=16, fontweight='bold', pad=20)";
    lit "plt.xticks(fontsize=12)";
    lit "plt.yticks(fontsize=12)";
    [];
    lit "# Add value labels on bars";
    lit "for bar in bars:";
    lit "    height = bar.get_height()";
    lit "    plt.text(bar.get_x() + bar.get_width()/2., height,";
    lit "            f'${height:,.0f}',";
    lit "            ha='center', va='bottom', fontsize=11, fontweight='bold')";
    [];
    lit "plt.grid(axis='y', alpha=0.3)";
    lit "plt.tight_layout()";
    []
   ].

(** The chart of revenue by region (lines 264-289) *)
Definition chart_revenue_by_region : str :=
  join nl
   [
    [];
    lit "# Revenue by Region Analysis";
    lit "revenue_by_region = df.groupby('Region')['Revenue'].sum().sort_values(ascending=False)";
    lit "print(f" ++ dq ++ lit "\nRevenue by Region:" ++ dq ++ lit ")";
    lit "for region, revenue in revenue_by_region.items():";
    lit "    print(f" ++ dq ++ lit "  {region}: ${revenue:,.2f}" ++ dq ++ lit ")";
    [];
    lit "# Create bar chart";
    lit "colors = sns.color_palette(" ++ dq ++ lit "Set2" ++ dq
      ++ lit ", len(revenue_by_region))";
    lit "bars = plt.bar(revenue_by_region.index, revenue_by_region.values, color=colors, edgecolor='black', linewidth=1.5)";
    lit "plt.xlabel('Region', fontsize=14, fontweight='bold')";
    lit "plt.ylabel('Total Revenue ($)', fontsize=14, fontweight='bold')";
    lit "plt.title('Total Revenue by Region', fontsize=16, fontweight='bold', pad=20)";
    lit "plt.xticks(fontsize=12)";
    lit "plt.yticks(fontsize=12)";
    [];
    lit "# Add value labels";
    lit "for bar in bars:";
    lit "    height = bar.get_height()";
    lit "    plt.text(bar.get_x() + bar.get_width()/2., height,";
    lit "            f'${height:,.0f}',";
    lit "            ha='center', va='bottom', fontsize=11, fontweight='bold')";
    [];
    lit "plt.grid(axis='y', alpha=0.3)";
    lit "plt.tight_layout()";
    []
   ].

(** The chart of the top products (lines 292-315) *)
Definition chart_top_products : str :=
  join nl
   [
    [];
    lit "# Top Products Analysis";
    lit "product_revenue = df.groupby('Product')['Revenue'].sum().sort_values(ascending=False).head(5)";
    lit "print(f" ++ dq ++ lit "\nTop 5 Products by Revenue:" ++ dq ++ lit ")";
    lit "for i, (product, revenue) in enumerate(product_revenue.items(), 1):";
    lit "    print(f" ++ dq ++ lit "  {i}. {product}: ${revenue:,.2f}" ++ dq ++ lit ")";
    [];
    lit "# Create horizontal bar chart";
    lit "colors = sns.color_palette(" ++ dq ++ lit "coolwarm" ++ dq
      ++ lit ", len(product_revenue))";
    lit "bars = plt.barh(range(len(product_revenue)), product_revenue.values, color=colors, edgecolor='black', linewidth=1.5)";
    lit "plt.yticks(range(len(product_revenue)), product_revenue.index, fontsize=12)";
    lit "plt.xlabel('Total Revenue ($)', fontsize=14, fontweight='bold')";
    lit "plt.ylabel('Product', fontsize=14, fontweight='bold')";
    lit "plt.title('Top 5 Products by Revenue', fontsize=16, fontweight='bold', pad=20)";
    lit "plt.xticks(fontsize=12)";
    [];
    lit "# Add value labels";
    lit "for i, (bar, value) in enumerate(zip(bars, product_revenue.values)):";
    lit "    plt.text(value, i, f' ${value:,.0f}', ";
    lit "            va='center', fontsize=11, fontweight='bold')";
    [];
    lit "plt.grid(axis='x', alpha=0.3)";
    lit "plt.tight_layout()";
    []
   ].

(** The chart of the daily trend (lines 318-336) *)
Definition chart_daily_trend : str :=
  join nl
   [
    [];
    lit "# Daily Revenue Trend";
    lit "df['Date'] = pd.to_datetime(df['Date'])";
    lit "daily_revenue = df.groupby('Date')['Revenue'].sum().sort_index()";
    lit "print(f" ++ dq ++ lit "\nDaily Revenue Trend:" ++ dq ++ lit ")";
    lit "for date, revenue in daily_revenue.items():";
    lit "    print(f" ++ dq ++ lit "  {date.strftime('%Y-%m-%d')}: ${revenue:,.2f}" ++ dq
      ++ lit ")";
    [];
    lit "# Create line chart";
    lit "plt.plot(daily_revenue.index, daily_revenue.values, marker='o', linewidth=3, ";
    lit "        markersize=8, color='#2E86AB', markerfacecolor='#A23B72', markeredgecolor='white', markeredgewidth=2)";
    lit "plt.xlabel('Date', fontsize=14, fontweight='bold')";
    lit "plt.ylabel('Total Revenue ($)', fontsize=14, fontweight='bold')";
    lit "plt.title('Daily Revenue Trend', fontsize=16, fontweight='bold', pad=20)";
    lit "plt.xticks(rotation=45, ha='right', fontsize=11)";
    lit "plt.yticks(fontsize=12)";
    lit "plt.grid(True, alpha=0.3)";
    lit "plt.tight_layout()";
    []
   ].

(** The chart drawn when no keyword is found (lines 340-353) *)
Definition chart_default : str :=
  join nl
   [
    [];
    lit "# Default Analysis: Revenue by Category";
    lit "revenue_by_category = df.groupby('Category')['Revenue'].sum().sort_values(ascending=False)";
    lit "print(f" ++ dq ++ lit "\nRevenue by Category:" ++ dq ++ lit ")";
    lit "for category, revenue in revenue_by_category.items():";
    lit "    print(f" ++ dq ++ lit "  {category}: ${revenue:,.2f}" ++ dq ++ lit ")";
    [];
    lit "colors = sns.color_palette(" ++ dq ++ lit "husl" ++ dq
      ++ lit ", len(revenue_by_category))";
    lit "plt.bar(revenue_by_category.index, revenue_by_category.values, color=colors)";
    lit "plt.xlabel('Category', fontsize=12)";
    lit "plt.ylabel('Total Revenue ($)', fontsize=12)";
    lit "plt.title('Revenue Analysis', fontsize=14, fontweight='bold')";
    lit "plt.tight_layout()";
    []
   ].

(** The tail of the generated script (lines 356-363) *)
Definition chart_save_block (output_filename : str) : str :=
  join nl
   [
    [];
    lit "# Save the chart to /tmp directory (lower DPI for faster save)";
    lit "print(" ++ dq ++ lit "\nSaving chart..." ++ dq ++ lit ")";
    lit "plt.savefig('/tmp/" ++ output_filename
      ++ lit "', dpi=150, bbox_inches='tight', facecolor='white', format='png')";
    lit "plt.close()  # Close to free memory";
    lit "print(f" ++ dq ++ [8218; 250; 214] ++ lit " Chart saved as '/tmp/" ++ output_filename
      ++ lit "'" ++ dq ++ lit ")";
    lit "print(" ++ dq ++ lit "=" ++ dq ++ lit " * 60)";
    []
   ].

(** The characters that stand, in this file, for the cross mark, the check
    mark and the warning sign. *)
Definition chart_cross : str := [8218; 249; 229].
Definition chart_check : str := [8218; 250; 214].
Definition chart_warning : str := [8218; 246; 8224; 212; 8719; 232].

(** The loop of lines 376-379, which keeps the stderr data. *)
Definition collect_stderr (error_msgs : list str) (output_item : OutputItem) : list str :=
  if str_eqb (type output_item) (lit "stderr") then error_msgs ++ [data output_item]
  else error_msgs.

Section Chart.
Context (E : Env).
(** [str.lower], and [traceback.format_exc] for the exception being handled. *)
Context (str_lower : str -> str) (format_exc : PyException -> str).
Local Open Scope py_scope.

(** The chart block chosen by the words of the description (lines 235-353). *)
Definition chart_body (analysis_description : str) : str :=
  if contains (lit "revenue") (str_lower analysis_description)
     && contains (lit "category") (str_lower analysis_description)
  then chart_revenue_by_category
  else if contains (lit "region") (str_lower analysis_description)
  then chart_revenue_by_region
  else if contains (lit "product") (str_lower analysis_description)
          && contains (lit "top") (str_lower analysis_description)
  then chart_top_products
  else if contains (lit "trend") (str_lower analysis_description)
          || contains (lit "time") (str_lower analysis_description)
  then chart_daily_trend
  else chart_default.

(** [code] as lines 201-363 build it. *)
Definition chart_code (csv_content : option str)
    (chart_type analysis_description output_filename : str) : str :=
  chart_preamble csv_content chart_type analysis_description
  ++ chart_body analysis_description
  ++ chart_save_block output_filename.

Definition analyze_data_and_create_chart (csv_content : option str)
    (chart_type analysis_description output_filename : str) : M (World E) str :=
  let code := chart_code csv_content chart_type analysis_description output_filename in
  try_except
    (result <- execute E code (lit "python") false ;;
     let status := status result in
     if is_failure status then
       let error_msgs := fold_left collect_stderr (outputs result) [] in
       ret (chart_cross ++ lit " Execution failed: " ++ status ++ nl ++ join nl error_msgs)
     else
       let '(output_lines, error_lines) := fold_left collect (outputs result) ([], []) in
       let result_text :=
         if truthy output_lines
         then chart_check ++ lit " Chart created successfully!" ++ nl ++ nl
              ++ join nl output_lines
         else chart_warning ++ lit " Chart created but no analysis output captured." in
       let result_text :=
         if truthy error_lines
         then result_text ++ nl ++ nl ++ chart_warning ++ lit " Warnings/Errors:" ++ nl
              ++ join nl error_lines
         else result_text in
       ret result_text)
    (fun e => ret (chart_cross ++ lit " Error: " ++ exc_str e ++ nl ++ format_exc e)).

End Chart.

(** The text the chart tool makes of the stdout data and the stderr data of
    a reply with a non-failing status (lines 391-398). *)
Definition chart_success_text (out err : list str) : str :=
  (if truthy out
   then chart_check ++ lit " Chart created successfully!" ++ nl ++ nl ++ join nl out
   else chart_warning ++ lit " Chart created but no analysis output captured.")
  ++ (if truthy err
      then nl ++ nl ++ chart_warning ++ lit " Warnings/Errors:" ++ nl ++ join nl err
      else []).

(* ================================================================== *)
(** ** The box printer (2-example-interactive.py, lines 53-63) *)

(** [s.split(sep)] for a separator of one character. *)
Fixpoint str_split (sep : N) (s : str) : list str :=
  match s with
  | [] => [[]]
  | c :: s' =>
      if c =? sep then [] :: str_split sep s'
      else match str_split sep s' with
           | line :: rest => (c :: line) :: rest
           | [] => [[c]]
           end
  end.



Definition Colors_CYAN : str := [27; 91; 57; 54; 109].



(* ================================================================== *)
(** ** The chat loop (2-example-interactive.py, lines 153-201) *)

(** How a call inside the loop can end without a value: with an
    [Exception], or with the [KeyboardInterrupt] that the loop handles in a
    clause of its own. *)
Inductive Thrown : Type :=
| Exc (e : PyException)
| KeyboardInterrupt.

Inductive outcome (A : Type) : Type :=
| Returns (a : A)
| Throws (t : Thrown).
Arguments Returns {A} a.
Arguments Throws {A} t.

(** The terminal and the agent runtime, as the loop uses them. *)
Record Console := mkConsole {
  Session : Type;
  (** [input(prompt)] *)
  input : Session -> outcome str * Session;
  (** [str((await Runner.run(agent, input=user_input)).final_output)] *)
  run_agent : str -> Session -> outcome str * Session
}.

(** Whether the loop goes on, and the value of [tasks_completed]. *)
Inductive LoopState : Type :=
| Running (tasks_completed : nat)
| Ended (tasks_completed : nat).

Definition tasks_of (st : LoopState) : nat :=
  match st with Running n => n | Ended n => n end.

Definition exit_words : list str := [lit "exit"; lit "quit"; lit "bye"; lit "q"].

(** [x in words]. *)
Definition str_in (x : str) (words : list str) : bool := existsb (str_eqb x) words.

Section Chat.
Context (C : Console).
(** [str.lower]. *)
Context (str_lower : str -> str).

(** One turn of the [while True] loop.  What a turn prints (the banners,
    the response and the timings) is left out. *)
Definition chat_turn (tasks_completed : nat) (s : Session C) : LoopState * Session C :=
  match input C s with
  | (Throws KeyboardInterrupt, s1) => (Ended tasks_completed, s1)
  | (Throws (Exc e), s1) => (Running tasks_completed, s1)
  | (Returns raw, s1) =>
      let user_input := strip raw in
      if negb (truthy user_input) then (Running tasks_completed, s1)
      else if str_in (str_lower user_input) exit_words then (Ended tasks_completed, s1)
      else
        match run_agent C user_input s1 with
        | (Returns response_text, s2) => (Running (S tasks_completed), s2)
        | (Throws KeyboardInterrupt, s2) => (Ended tasks_completed, s2)
        | (Throws (Exc e), s2) => (Running tasks_completed, s2)
        end
  end.

(** At most [n] turns of the loop. *)
Fixpoint chat_loop (n : nat) (tasks_completed : nat) (s : Session C)
  : LoopState * Session C :=
  match n with
  | O => (Running tasks_completed, s)
  | S n' =>
      match chat_turn tasks_completed s with
      | (Running tasks_completed', s1) => chat_loop n' tasks_completed' s1
      | (Ended tasks_completed', s1) => (Ended tasks_completed', s1)
      end
  end.

End Chat.

(** A console for examples: the lines still to be typed and the prompts the
    agent has received; reading past the last line is an [EOFError]; the
    agent answers every prompt with "ok". *)
Module Script.

Definition session : Type := list str * list str.

Definition EOFError : PyException := mkException "EOFError" (lit "EOF when reading a line").

Definition read (s : session) : outcome str * session :=
  match fst s with
  | [] => (Throws (Exc EOFError), s)
  | line :: rest => (Returns line, (rest, snd s))
  end.

Definition agent (prompt : str) (s : session) : outcome str * session :=
  (Returns (lit "ok"), (fst s, snd s ++ [prompt])).

Definition console : Console := mkConsole session read agent.

(** [str.lower] on ASCII text. *)
Definition lower (s : str) : str :=
  map (fun c => if (65 <=? c) && (c <=? 90) then c + 32 else c) s.

End Script.

(* ================================================================== *)
(** * Properties *)

(** ** Strings *)

Lemma str_eqb_eq (a b : str) : str_eqb a b = true <-> a = b.
Proof.
  revert b; induction a as [|x a IH]; intros [|y b]; simpl; split;
    try congruence; try reflexivity.
  - intros H. apply andb_true_iff in H as [Hx Hab].
    apply N.eqb_eq in Hx. apply IH in Hab. congruence.
  - intros H. injection H as -> ->.
    rewrite N.eqb_refl. simpl. now apply IH.
Qed.

Lemma str_eqb_neq (a b : str) : a <> b -> str_eqb a b = false.
Proof.
  intros H. destruct (str_eqb a b) eqn:Heq; [|reflexivity].
  apply str_eqb_eq in Heq. contradiction.
Qed.

Lemma startswith_app (p s : str) : startswith p (p ++ s) = true.
Proof.
  induction p as [|x p IH]; simpl; [reflexivity|].
  now rewrite N.eqb_refl.
Qed.

Lemma find_startswith (p s : str) : startswith p s = true -> find p s = Some 0%nat.
Proof. intros H. destruct s; simpl; now rewrite H. Qed.

Lemma find_skip (p : str) (x : N) (s : str) :
  startswith p (x :: s) = false -> find p (x :: s) = option_map S (find p s).
Proof. intros H. simpl find. now rewrite H. Qed.

Lemma contains_app (p a b : str) : contains p (a ++ p ++ b) = true.
Proof.
  unfold contains. induction a as [|x a IH].
  - simpl app. now rewrite find_startswith by apply startswith_app.
  - simpl app. simpl find.
    destruct (startswith p (x :: a ++ p ++ b)); [reflexivity|].
    destruct (find p (a ++ p ++ b)); [reflexivity | discriminate].
Qed.

Lemma contains_suffix (p a : str) : contains p (a ++ p) = true.
Proof.
  rewrite <- (app_nil_r p) at 2. apply contains_app.
Qed.

(** ** The output loop *)

Lemma stdout_not_stderr (i : OutputItem) : is_stdout i = true -> is_stderr i = false.
Proof.
  unfold is_stdout, is_stderr. intros H. apply str_eqb_eq in H. now rewrite H.
Qed.

Lemma fold_collect (items : list OutputItem) (out err : list str) :
  fold_left collect items (out, err)
  = (out ++ stdout_items items, err ++ stderr_items items).
Proof.
  revert out err. induction items as [|i items IH]; intros out err; simpl.
  - now rewrite !app_nil_r.
  - unfold stdout_items, stderr_items in *. simpl.
    fold (is_stdout i). fold (is_stderr i).
    destruct (is_stdout i) eqn:Ho.
    + rewrite (stdout_not_stderr i Ho), IH. simpl. now rewrite <- app_assoc.
    + destruct (is_stderr i) eqn:He; rewrite IH; simpl;
        [now rewrite <- app_assoc | reflexivity].
Qed.

Lemma result_parts_blocks (r : ExecutionResult) :
  result_parts r = blocks (stdout_items (outputs r)) (stderr_items (outputs r)).
Proof.
  unfold result_parts. now rewrite fold_collect.
Qed.

Lemma non_failing_is_failure (r : ExecutionResult) :
  non_failing r -> is_failure (status r) = false.
Proof.
  intros [H1 H2]. unfold is_failure.
  now rewrite (str_eqb_neq _ _ H1), (str_eqb_neq _ _ H2).
Qed.

Lemma failing_is_failure (s : str) :
  s = lit "error" \/ s = lit "failed" -> is_failure s = true.
Proof. intros [-> | ->]; reflexivity. Qed.

(** What [execute_code] returns once the sandbox has answered: the three
    return statements of the [try] block. *)
Lemma execute_code_reply (E : Env) (code language : str) (w w' : World E)
    (r : ExecutionResult) :
  execute E code language false w = (Ok r, w') ->
  execute_code E code language w =
    (Ok (if is_failure (status r) then lit "Execution failed with status: " ++ status r
         else if truthy (result_parts r) then join (nl ++ nl) (result_parts r)
         else no_output_message r), w').
Proof.
  intros H. unfold execute_code, try_except, bind. rewrite H.
  destruct (is_failure (status r)); [reflexivity|].
  destruct (truthy (result_parts r)); reflexivity.
Qed.

Lemma execute_code_with_network_reply (E : Env) (code language : str)
    (w w' : World E) (r : ExecutionResult) :
  execute E code language true w = (Ok r, w') ->
  execute_code_with_network E code language w =
    (Ok (if is_failure (status r) then lit "Execution failed with status: " ++ status r
         else if truthy (result_parts r) then join (nl ++ nl) (result_parts r)
         else lit "Code executed successfully (status: " ++ status r
              ++ lit ") but produced no output."), w').
Proof.
  intros H. unfold execute_code_with_network, try_except, bind. rewrite H.
  destruct (is_failure (status r)); [reflexivity|].
  destruct (truthy (result_parts r)); reflexivity.
Qed.

Lemma execute_python_analysis_reply (E : Env) (code : str) (w w' : World E)
    (r : ExecutionResult) :
  execute E code (lit "python") false w = (Ok r, w') ->
  execute_python_analysis E code w =
    (Ok (if is_failure (status r)
         then cross_mark ++ lit " Execution failed with status: " ++ status r
         else if truthy (result_parts r)
         then check_mark ++ lit " Analysis complete:" ++ nl ++ join nl (result_parts r)
         else warning_sign
              ++ lit " Code executed but no output captured. Make sure to use print() statements!"),
     w').
Proof.
  intros H. unfold execute_python_analysis, try_except, bind. rewrite H.
  destruct (is_failure (status r)); [reflexivity|].
  destruct (truthy (result_parts r)); reflexivity.
Qed.

(* ================================================================== *)
(** ** Failure statuses *)

(** C1: for every reply whose status is "error" or "failed", [execute_code]
    returns a failure text that contains the status and nothing of the
    outputs of the reply, empty or not: the text is exactly "Execution failed
    with status: " followed by the status, so it is the same for every
    sequence of outputs that comes with that status. *)
Theorem execute_code_failure_text (E : Env) (code language : str)
    (w w' : World E) (r : ExecutionResult) :
  execute E code language false w = (Ok r, w') ->
  status r = lit "error" \/ status r = lit "failed" ->
  execute_code E code language w
    = (Ok (lit "Execution failed with status: " ++ status r), w')
  /\ contains (status r) (lit "Execution failed with status: " ++ status r) = true.
Proof.
  intros Hcall Hst. split.
  - rewrite (execute_code_reply E code language w w' r Hcall).
    now rewrite (failing_is_failure _ Hst).
  - apply contains_suffix.
Qed.

Lemma execute_code_failure_text_witness :
  execute_code
    (Mem.env (Ok (mkExecutionResult (lit "error") [Mem.stdout (lit "partial output")] None)))
    (lit "print(1/0)") (lit "python") Mem.empty
    = (Ok (lit "Execution failed with status: error"), Mem.empty)
  /\ contains (lit "error") (lit "Execution failed with status: error") = true.
Proof.
  apply (execute_code_failure_text
           (Mem.env (Ok (mkExecutionResult (lit "error")
                           [Mem.stdout (lit "partial output")] None)))
           (lit "print(1/0)") (lit "python") Mem.empty Mem.empty
           (mkExecutionResult (lit "error") [Mem.stdout (lit "partial output")] None)).
  - reflexivity.
  - left. reflexivity.
Defined.

(* ================================================================== *)
(** ** Faults of the remote call *)

(** C2, as amended: [execute_code] returns exactly one string and raises
    nothing whenever the remote call returns a result or raises an instance
    of [Exception]; in the second case the string is "Error executing code: "
    followed by the message of the exception, and the world is the one the
    call left.  The handler is [except Exception]: a signal outside that
    class raised by the call ([KeyboardInterrupt], [SystemExit]) is not
    caught and reaches the caller of [execute_code]. *)
Theorem execute_code_returns_unless_signal (E : Env) (code language : str)
    (w : World E) :
  (forall (r : ExecutionResult) (w1 : World E),
      execute E code language false w = (Ok r, w1) ->
      exists text : str, execute_code E code language w = (Ok text, w1))
  /\ (forall (e : PyException) (w1 : World E),
        execute E code language false w = (Raise e, w1) ->
        execute_code E code language w
          = (Ok (lit "Error executing code: " ++ exc_str e), w1)
        /\ contains (exc_str e) (lit "Error executing code: " ++ exc_str e) = true)
  /\ (forall (s : PySignal) (w1 : World E),
        execute E code language false w = (Abort s, w1) ->
        execute_code E code language w = (Abort s, w1)).
Proof.
  split; [|split].
  - intros r w1 Hcall. rewrite (execute_code_reply E code language w w1 r Hcall).
    eexists. reflexivity.
  - intros e w1 Hcall. split; [|apply contains_suffix].
    unfold execute_code, try_except, bind. now rewrite Hcall.
  - intros s w1 Hcall.
    unfold execute_code, try_except, bind. now rewrite Hcall.
Qed.

Lemma execute_code_returns_unless_signal_witness :
  execute_code (Mem.env (Raise (mkException "ConnectionError" (lit "connection refused"))))
    (lit "print(1)") (lit "python") Mem.empty
  = (Ok (lit "Error executing code: connection refused"), Mem.empty)
  /\ exists text : str,
       execute_code (Mem.env (Ok (mkExecutionResult (lit "completed")
                                    [Mem.stdout (lit "1")] None)))
         (lit "print(1)") (lit "python") Mem.empty
       = (Ok text, Mem.empty).
Proof.
  split.
  - exact (proj1 (proj1 (proj2 (execute_code_returns_unless_signal
             (Mem.env (Raise (mkException "ConnectionError" (lit "connection refused"))))
             (lit "print(1)") (lit "python") Mem.empty))
           (mkException "ConnectionError" (lit "connection refused")) Mem.empty eq_refl)).
  - exact (proj1 (execute_code_returns_unless_signal
             (Mem.env (Ok (mkExecutionResult (lit "completed") [Mem.stdout (lit "1")] None)))
             (lit "print(1)") (lit "python") Mem.empty)
           (mkExecutionResult (lit "completed") [Mem.stdout (lit "1")] None)
           Mem.empty eq_refl).
Defined.

(** C2, as stated, fails: when the remote call is interrupted from the
    keyboard, [execute_code] returns no string; the [KeyboardInterrupt]
    passes its handler and reaches the caller. *)
Lemma execute_code_propagates_keyboard_interrupt :
  execute_code (Mem.env (Abort Mem.keyboard_interrupt))
    (lit "print(1)") (lit "python") Mem.empty
  = (Abort Mem.keyboard_interrupt, Mem.empty).
Proof. reflexivity. Qed.

(* ================================================================== *)
(** ** Formatting of successful runs *)

(** C3, as amended: for a reply with a non-failing status whose stdout items
    are "a" then "b" and which has no stderr item, [execute_code] and
    [execute_code_with_network] return exactly "a\nb"; [execute_python_analysis]
    returns that same text after its own first line, the check mark followed
    by " Analysis complete:". *)
Theorem adapters_two_stdout_lines (E : Env) (code language : str)
    (w w' : World E) (r : ExecutionResult) :
  non_failing r ->
  stdout_items (outputs r) = [lit "a"; lit "b"] ->
  stderr_items (outputs r) = [] ->
  (execute E code language false w = (Ok r, w') ->
   execute_code E code language w = (Ok (lit "a" ++ nl ++ lit "b"), w'))
  /\ (execute E code language true w = (Ok r, w') ->
      execute_code_with_network E code language w = (Ok (lit "a" ++ nl ++ lit "b"), w'))
  /\ (execute E code (lit "python") false w = (Ok r, w') ->
      execute_python_analysis E code w
        = (Ok (check_mark ++ lit " Analysis complete:" ++ nl ++ lit "a" ++ nl ++ lit "b"), w')).
Proof.
  intros Hst Hout Herr.
  assert (Hparts : result_parts r = [lit "a" ++ nl ++ lit "b"])
    by (rewrite result_parts_blocks, Hout, Herr; reflexivity).
  pose proof (non_failing_is_failure r Hst) as Hf.
  repeat split; intros Hcall.
  - rewrite (execute_code_reply E code language w w' r Hcall), Hf, Hparts. reflexivity.
  - rewrite (execute_code_with_network_reply E code language w w' r Hcall), Hf, Hparts.
    reflexivity.
  - rewrite (execute_python_analysis_reply E code w w' r Hcall), Hf, Hparts. reflexivity.
Qed.

Lemma adapters_two_stdout_lines_witness :
  execute_code
    (Mem.env (Ok (mkExecutionResult (lit "completed")
                    [Mem.stdout (lit "a"); Mem.stdout (lit "b")] (Some 12%Z))))
    (lit "print('a'); print('b')") (lit "python") Mem.empty
  = (Ok (lit "a" ++ nl ++ lit "b"), Mem.empty)
  /\ execute_code_with_network
       (Mem.env (Ok (mkExecutionResult (lit "completed")
                       [Mem.stdout (lit "a"); Mem.stdout (lit "b")] (Some 12%Z))))
       (lit "print('a'); print('b')") (lit "python") Mem.empty
     = (Ok (lit "a" ++ nl ++ lit "b"), Mem.empty)
  /\ execute_python_analysis
       (Mem.env (Ok (mkExecutionResult (lit "completed")
                       [Mem.stdout (lit "a"); Mem.stdout (lit "b")] (Some 12%Z))))
       (lit "print('a'); print('b')") Mem.empty
     = (Ok (check_mark ++ lit " Analysis complete:" ++ nl ++ lit "a" ++ nl ++ lit "b"),
        Mem.empty).
Proof.
  assert (Hst : non_failing
                  (mkExecutionResult (lit "completed")
                     [Mem.stdout (lit "a"); Mem.stdout (lit "b")] (Some 12%Z)))
    by (split; discriminate).
  destruct (adapters_two_stdout_lines
              (Mem.env (Ok (mkExecutionResult (lit "completed")
                              [Mem.stdout (lit "a"); Mem.stdout (lit "b")] (Some 12%Z))))
              (lit "print('a'); print('b')") (lit "python") Mem.empty Mem.empty
              (mkExecutionResult (lit "completed")
                 [Mem.stdout (lit "a"); Mem.stdout (lit "b")] (Some 12%Z))
              Hst eq_refl eq_refl) as (H1 & H2 & H3).
  exact (conj (H1 eq_refl) (conj (H2 eq_refl) (H3 eq_refl))).
Defined.

(** C3, as stated, fails for the third adapter: on the stdout items "a" and
    "b" [execute_python_analysis] returns a text that starts with its own
    header line, so the text is not "a\nb". *)
Lemma execute_python_analysis_adds_header :
  execute_python_analysis
    (Mem.env (Ok (mkExecutionResult (lit "completed")
                    [Mem.stdout (lit "a"); Mem.stdout (lit "b")] None)))
    (lit "print('a'); print('b')") Mem.empty
  = (Ok (check_mark ++ lit " Analysis complete:" ++ nl ++ lit "a" ++ nl ++ lit "b"),
     Mem.empty)
  /\ str_eqb (check_mark ++ lit " Analysis complete:" ++ nl ++ lit "a" ++ nl ++ lit "b")
             (lit "a" ++ nl ++ lit "b") = false.
Proof. split; reflexivity. Qed.

(** C4: for every reply with a non-failing status and neither stdout nor
    stderr items, [execute_code] returns the message that the code ran and
    produced no output; the message contains the status and the execution
    time (0 when the reply carries none). *)
Theorem execute_code_no_output (E : Env) (code language : str)
    (w w' : World E) (r : ExecutionResult) :
  execute E code language false w = (Ok r, w') ->
  non_failing r ->
  stdout_items (outputs r) = [] ->
  stderr_items (outputs r) = [] ->
  execute_code E code language w
    = (Ok (lit "Code executed successfully (status: " ++ status r
           ++ lit ", execution time: " ++ str_of_int (getattr_execution_time_ms r 0)
           ++ lit "ms) but produced no output."), w')
  /\ contains (status r) (no_output_message r) = true
  /\ contains (str_of_int (getattr_execution_time_ms r 0)) (no_output_message r) = true
  /\ contains (lit "produced no output") (no_output_message r) = true.
Proof.
  intros Hcall Hst Hout Herr. repeat split.
  - rewrite (execute_code_reply E code language w w' r Hcall).
    rewrite (non_failing_is_failure r Hst), result_parts_blocks, Hout, Herr.
    reflexivity.
  - apply contains_app.
  - unfold no_output_message.
    rewrite (app_assoc _ (status r)), (app_assoc _ (lit ", execution time: ")).
    apply contains_app.
  - unfold no_output_message.
    change (lit "ms) but produced no output.")
      with (lit "ms) but " ++ lit "produced no output" ++ lit ".").
    rewrite !app_assoc. rewrite <- (app_assoc _ (lit "produced no output")).
    apply contains_app.
Qed.

Lemma execute_code_no_output_witness :
  execute_code
    (Mem.env (Ok (mkExecutionResult (lit "completed") [] (Some 42%Z))))
    (lit "x = 5 + 5") (lit "python") Mem.empty
  = (Ok (lit "Code executed successfully (status: completed, execution time: 42ms) but produced no output."),
     Mem.empty).
Proof.
  apply (execute_code_no_output
           (Mem.env (Ok (mkExecutionResult (lit "completed") [] (Some 42%Z))))
           (lit "x = 5 + 5") (lit "python") Mem.empty Mem.empty
           (mkExecutionResult (lit "completed") [] (Some 42%Z))).
  - reflexivity.
  - split; discriminate.
  - reflexivity.
  - reflexivity.
Defined.

(** C5: for a reply with a non-failing status whose stdout items are just
    "x" and whose stderr items are just "boom", [execute_code] returns the
    stdout block "x", a blank line, and the error block "Errors:\nboom", in
    that order. *)
Theorem execute_code_output_then_errors (E : Env) (code language : str)
    (w w' : World E) (r : ExecutionResult) :
  execute E code language false w = (Ok r, w') ->
  non_failing r ->
  stdout_items (outputs r) = [lit "x"] ->
  stderr_items (outputs r) = [lit "boom"] ->
  execute_code E code language w
    = (Ok (lit "x" ++ nl ++ nl ++ lit "Errors:" ++ nl ++ lit "boom"), w').
Proof.
  intros Hcall Hst Hout Herr.
  rewrite (execute_code_reply E code language w w' r Hcall).
  rewrite (non_failing_is_failure r Hst), result_parts_blocks, Hout, Herr.
  reflexivity.
Qed.

Lemma execute_code_output_then_errors_witness :
  execute_code
    (Mem.env (Ok (mkExecutionResult (lit "completed")
                    [Mem.stderr (lit "boom"); Mem.stdout (lit "x")] None)))
    (lit "import sys; sys.stderr.write('boom'); sys.stdout.write('x')") (lit "python")
    Mem.empty
  = (Ok (lit "x" ++ nl ++ nl ++ lit "Errors:" ++ nl ++ lit "boom"), Mem.empty).
Proof.
  apply (execute_code_output_then_errors
           (Mem.env (Ok (mkExecutionResult (lit "completed")
                           [Mem.stderr (lit "boom"); Mem.stdout (lit "x")] None)))
           (lit "import sys; sys.stderr.write('boom'); sys.stdout.write('x')")
           (lit "python") Mem.empty Mem.empty
           (mkExecutionResult (lit "completed")
              [Mem.stderr (lit "boom"); Mem.stdout (lit "x")] None)).
  - reflexivity.
  - split; discriminate.
  - reflexivity.
  - reflexivity.
Defined.
(* ================================================================== *)
(** ** The empty-output branch *)

Lemma blocks_nil_iff (out err : list str) : blocks out err = [] <-> out = [] /\ err = [].
Proof.
  unfold blocks. destruct out, err; simpl; split; intros H;
    try discriminate; try (destruct H; discriminate); auto.
Qed.

(** C9: with a non-failing status, a single stdout item whose data is the
    empty string makes [execute_code] return the empty string, not the
    "produced no output" message.  That message is returned only by the
    branch taken when there is neither a stdout nor a stderr item; as soon
    as there is one, the returned text is instead the blocks built from the
    items' data, joined by a blank line. *)
Theorem execute_code_empty_output_cases (E : Env) (code language : str)
    (w w' : World E) (r : ExecutionResult) :
  execute E code language false w = (Ok r, w') ->
  non_failing r ->
  (outputs r = [mkOutputItem (lit "stdout") []] ->
   execute_code E code language w = (Ok [], w')
   /\ str_eqb [] (no_output_message r) = false)
  /\ (stdout_items (outputs r) = [] /\ stderr_items (outputs r) = [] ->
      execute_code E code language w = (Ok (no_output_message r), w'))
  /\ (stdout_items (outputs r) <> [] \/ stderr_items (outputs r) <> [] ->
      execute_code E code language w
      = (Ok (join (nl ++ nl)
               (blocks (stdout_items (outputs r)) (stderr_items (outputs r)))), w')).
Proof.
  intros Hcall Hst.
  rewrite (execute_code_reply E code language w w' r Hcall).
  rewrite (non_failing_is_failure r Hst), result_parts_blocks.
  split; [|split]; intros H.
  - rewrite H. split; reflexivity.
  - destruct H as [-> ->]. reflexivity.
  - destruct (blocks (stdout_items (outputs r)) (stderr_items (outputs r))) eqn:Hb;
      [|reflexivity].
    apply blocks_nil_iff in Hb. destruct Hb as [Ho He].
    destruct H as [H | H]; contradiction.
Qed.

Lemma execute_code_empty_output_cases_witness :
  execute_code
    (Mem.env (Ok (mkExecutionResult (lit "completed") [Mem.stdout []] None)))
    (lit "print('', end='')") (lit "python") Mem.empty
  = (Ok [], Mem.empty)
  /\ execute_code
       (Mem.env (Ok (mkExecutionResult (lit "completed") [] None)))
       (lit "pass") (lit "python") Mem.empty
     = (Ok (lit "Code executed successfully (status: completed, execution time: 0ms) but produced no output."),
        Mem.empty)
  /\ execute_code
       (Mem.env (Ok (mkExecutionResult (lit "completed") [Mem.stderr (lit "warn")] None)))
       (lit "import sys; sys.stderr.write('warn')") (lit "python") Mem.empty
     = (Ok (lit "Errors:" ++ nl ++ lit "warn"), Mem.empty).
Proof.
  split; [|split].
  - refine (proj1 (proj1 (execute_code_empty_output_cases
             (Mem.env (Ok (mkExecutionResult (lit "completed") [Mem.stdout []] None)))
             (lit "print('', end='')") (lit "python") Mem.empty Mem.empty
             (mkExecutionResult (lit "completed") [Mem.stdout []] None)
             eq_refl _) eq_refl)).
    split; discriminate.
  - refine (proj1 (proj2 (execute_code_empty_output_cases
             (Mem.env (Ok (mkExecutionResult (lit "completed") [] None)))
             (lit "pass") (lit "python") Mem.empty Mem.empty
             (mkExecutionResult (lit "completed") [] None)
             eq_refl _)) (conj eq_refl eq_refl)).
    split; discriminate.
  - refine (proj2 (proj2 (execute_code_empty_output_cases
             (Mem.env (Ok (mkExecutionResult (lit "completed")
                             [Mem.stderr (lit "warn")] None)))
             (lit "import sys; sys.stderr.write('warn')") (lit "python")
             Mem.empty Mem.empty
             (mkExecutionResult (lit "completed") [Mem.stderr (lit "warn")] None)
             eq_refl _)) _).
    + split; discriminate.
    + right. discriminate.
Defined.

(* ================================================================== *)
(** ** Base64 round trip *)

Ltac cmp :=
  repeat (match goal with
          | |- context [?a <? ?b] => destruct (N.ltb_spec a b)
          | |- context [?a <=? ?b] => destruct (N.leb_spec a b)
          | |- context [?a =? ?b] => destruct (N.eqb_spec a b)
          end; try lia);
  cbn [andb orb negb]; try congruence.

Ltac lia_divmod := zify; Z.to_euclidean_division_equations; lia.

Lemma table_roundtrip (v : N) :
  v < 64 -> table_a2b_base64 (table_b2a_base64 v) = Some v.
Proof.
  intros Hv. unfold table_a2b_base64, table_b2a_base64.
  cmp; f_equal; lia.
Qed.

Lemma isspace_visible (c : N) : 33 <= c -> c < 133 -> isspace c = false.
Proof. intros Hlo Hhi. unfold isspace. cmp. Qed.

Lemma table_b2a_range (v : N) :
  v < 64 ->
  let c := table_b2a_base64 v in
  c < 128 /\ c <> BASE64_PAD /\ c <> 95 /\ isspace c = false.
Proof.
  intros Hv c.
  assert (Hc : 43 <= c <= 122 /\ c <> 61 /\ c <> 95)
    by (subst c; unfold table_b2a_base64; cmp; lia).
  unfold BASE64_PAD. repeat split; try lia.
  apply isspace_visible; lia.
Qed.

Lemma lor_shiftl_low (y x k : N) :
  x < 2 ^ k -> N.lor (N.shiftl y k) x = y * 2 ^ k + x.
Proof.
  intros Hx.
  assert (Hland : N.land (N.shiftl y k) x = 0).
  { apply N.bits_inj. intros n. rewrite N.land_spec, N.bits_0.
    destruct (N.lt_ge_cases n k) as [Hn | Hn].
    - now rewrite N.shiftl_spec_low.
    - rewrite <- (N.mod_small x (2 ^ k)) by exact Hx.
      rewrite N.mod_pow2_bits_high by exact Hn. apply andb_false_r. }
  rewrite <- N.shiftl_mul_pow2.
  rewrite <- N.lxor_lor by exact Hland.
  symmetry. now apply N.add_nocarry_lxor.
Qed.

Lemma land_3 (a : N) : N.land a 3 = a mod 4.
Proof. change 3 with (N.ones 2). apply N.land_ones. Qed.

Lemma land_15 (a : N) : N.land a 15 = a mod 16.
Proof. change 15 with (N.ones 4). apply N.land_ones. Qed.

Lemma land_63 (a : N) : N.land a 63 = a mod 64.
Proof. change 63 with (N.ones 6). apply N.land_ones. Qed.

(** The four 6-bit values of a group of three bytes, in arithmetic form. *)
Lemma sextet_1 (a : N) : N.shiftr a 2 = a / 4.
Proof. apply N.shiftr_div_pow2. Qed.

Lemma sextet_2 (a b : N) :
  b < 256 ->
  N.lor (N.shiftl (N.land a 3) 4) (N.shiftr b 4) = a mod 4 * 16 + b / 16.
Proof.
  intros Hb. rewrite lor_shiftl_low; rewrite N.shiftr_div_pow2, ?land_3;
    change (2 ^ 4) with 16; [reflexivity | lia_divmod].
Qed.

Lemma sextet_2_pad (a : N) : N.shiftl (N.land a 3) 4 = a mod 4 * 16.
Proof. now rewrite N.shiftl_mul_pow2, land_3. Qed.

Lemma sextet_3 (b c : N) :
  c < 256 ->
  N.lor (N.shiftl (N.land b 15) 2) (N.shiftr c 6) = b mod 16 * 4 + c / 64.
Proof.
  intros Hc. rewrite lor_shiftl_low; rewrite N.shiftr_div_pow2, ?land_15;
    change (2 ^ 2) with 4; change (2 ^ 6) with 64; [reflexivity | lia_divmod].
Qed.

Lemma sextet_3_pad (b : N) : N.shiftl (N.land b 15) 2 = b mod 16 * 4.
Proof. now rewrite N.shiftl_mul_pow2, land_15. Qed.

(** The three bytes that the decoder rebuilds from 6-bit values. *)
Lemma rebuilt_1 (s1 s2 : N) :
  s2 < 64 -> N.lor (N.shiftl s1 2) (N.shiftr s2 4) = s1 * 4 + s2 / 16.
Proof.
  intros H. rewrite lor_shiftl_low; rewrite N.shiftr_div_pow2;
    change (2 ^ 2) with 4; change (2 ^ 4) with 16; [reflexivity | lia_divmod].
Qed.

Lemma rebuilt_2 (s2 s3 : N) :
  s3 < 64 ->
  N.lor (N.shiftl (N.land s2 15) 4) (N.shiftr s3 2) = s2 mod 16 * 16 + s3 / 4.
Proof.
  intros H. rewrite lor_shiftl_low; rewrite N.shiftr_div_pow2, ?land_15;
    change (2 ^ 2) with 4; change (2 ^ 4) with 16; [reflexivity | lia_divmod].
Qed.

Lemma rebuilt_3 (s3 s4 : N) :
  s4 < 64 -> N.lor (N.shiftl (N.land s3 3) 6) s4 = s3 mod 4 * 64 + s4.
Proof.
  intros H. rewrite lor_shiftl_low; rewrite ?land_3;
    change (2 ^ 6) with 64; [reflexivity | exact H].
Qed.

Lemma byte_of_to_N (a : byte) : byte_of_N (Byte.to_N a) = a.
Proof.
  unfold byte_of_N. pose proof (Byte.to_N_bounded a).
  rewrite N.mod_small by lia. now rewrite Byte.of_to_N.
Qed.

Lemma byte_of_N_eq (n : N) (a : byte) : n = Byte.to_N a -> byte_of_N n = a.
Proof. intros ->. apply byte_of_to_N. Qed.

(** One decoded character of the alphabet, at each position of a quad. *)
Lemma loop_data_char (v : N) (rest : str) (quad_pos leftchar pads : N) (bin_data : bytes) :
  v < 64 ->
  a2b_base64_loop (table_b2a_base64 v :: rest) quad_pos leftchar pads bin_data =
    if quad_pos =? 0 then a2b_base64_loop rest 1 v 0 bin_data
    else if quad_pos =? 1 then
      a2b_base64_loop rest 2 (N.land v 15) 0
        (bin_data ++ [byte_of_N (N.lor (N.shiftl leftchar 2) (N.shiftr v 4))])
    else if quad_pos =? 2 then
      a2b_base64_loop rest 3 (N.land v 3) 0
        (bin_data ++ [byte_of_N (N.lor (N.shiftl leftchar 4) (N.shiftr v 2))])
    else
      a2b_base64_loop rest 0 0 0
        (bin_data ++ [byte_of_N (N.lor (N.shiftl leftchar 6) v)]).
Proof.
  intros Hv. cbn [a2b_base64_loop].
  destruct (table_b2a_range v Hv) as (_ & Hpad & _).
  rewrite (proj2 (N.eqb_neq _ _) Hpad), (table_roundtrip v Hv). reflexivity.
Qed.

Lemma list_ind3 {A} (P : list A -> Prop) :
  P [] -> (forall a, P [a]) -> (forall a b, P [a; b]) ->
  (forall a b c l, P l -> P (a :: b :: c :: l)) ->
  forall l, P l.
Proof.
  intros H0 H1 H2 H3.
  fix IH 1. intros [|a [|b [|c l]]];
    [apply H0 | apply H1 | apply H2 | apply H3, IH].
Qed.

Lemma loop_pad_pad (leftchar : N) (bin_data : bytes) :
  a2b_base64_loop [BASE64_PAD; BASE64_PAD] 2 leftchar 0 bin_data = Ok bin_data.
Proof. reflexivity. Qed.

Lemma loop_pad (leftchar : N) (bin_data : bytes) :
  a2b_base64_loop [BASE64_PAD] 3 leftchar 0 bin_data = Ok bin_data.
Proof. reflexivity. Qed.

Ltac quad_step :=
  rewrite loop_data_char;
  [ match goal with
    | |- context [0 =? 0] => change (0 =? 0) with true
    | |- context [1 =? 0] =>
        change (1 =? 0) with false; change (1 =? 1) with true
    | |- context [2 =? 0] =>
        change (2 =? 0) with false; change (2 =? 1) with false;
        change (2 =? 2) with true
    | |- context [3 =? 0] =>
        change (3 =? 0) with false; change (3 =? 1) with false;
        change (3 =? 2) with false
    end; cbv iota
  | ].

Lemma a2b_b2a_loop (content bin_data : bytes) (leftchar pads : N) :
  a2b_base64_loop (b64encode content) 0 leftchar pads bin_data = Ok (bin_data ++ content).
Proof.
  revert bin_data leftchar pads.
  induction content as [|a|a b|a b c content IH] using list_ind3;
    intros bin_data leftchar pads.
  - simpl. now rewrite app_nil_r.
  - pose proof (Byte.to_N_bounded a) as Ha.
    cbn [b64encode].
    quad_step; [|rewrite sextet_1; lia_divmod].
    quad_step; [|rewrite sextet_2_pad; lia_divmod].
    rewrite loop_pad_pad. do 2 f_equal. f_equal. apply byte_of_N_eq.
    rewrite rebuilt_1 by (rewrite sextet_2_pad; lia_divmod).
    rewrite sextet_1, sextet_2_pad. lia_divmod.
  - pose proof (Byte.to_N_bounded a) as Ha. pose proof (Byte.to_N_bounded b) as Hb.
    cbn [b64encode].
    quad_step; [|rewrite sextet_1; lia_divmod].
    quad_step; [|rewrite sextet_2 by lia; lia_divmod].
    quad_step; [|rewrite sextet_3_pad; lia_divmod].
    rewrite loop_pad, <- app_assoc. cbn [app]. do 2 f_equal.
    f_equal; [|f_equal]; apply byte_of_N_eq.
    + rewrite rebuilt_1 by (rewrite sextet_2 by lia; lia_divmod).
      rewrite sextet_1, sextet_2 by lia. lia_divmod.
    + rewrite rebuilt_2 by (rewrite sextet_3_pad; lia_divmod).
      rewrite sextet_2 by lia. rewrite sextet_3_pad. lia_divmod.
  - pose proof (Byte.to_N_bounded a) as Ha. pose proof (Byte.to_N_bounded b) as Hb.
    pose proof (Byte.to_N_bounded c) as Hc.
    cbn [b64encode app].
    quad_step; [|rewrite sextet_1; lia_divmod].
    quad_step; [|rewrite sextet_2 by lia; lia_divmod].
    quad_step; [|rewrite sextet_3 by lia; lia_divmod].
    quad_step; [|rewrite land_63; lia_divmod].
    rewrite IH, <- !app_assoc. cbn [app]. do 2 f_equal.
    f_equal; [|f_equal; [|f_equal]]; apply byte_of_N_eq.
    + rewrite rebuilt_1 by (rewrite sextet_2 by lia; lia_divmod).
      rewrite sextet_1, sextet_2 by lia. lia_divmod.
    + rewrite rebuilt_2 by (rewrite sextet_3 by lia; lia_divmod).
      rewrite sextet_2, sextet_3 by lia. lia_divmod.
    + rewrite rebuilt_3 by (rewrite land_63; lia_divmod).
      rewrite sextet_3 by lia. rewrite land_63. lia_divmod.
Qed.

Lemma b64encode_plain (content : bytes) : Forall plain (b64encode content).
Proof.
  assert (Hpad : plain BASE64_PAD)
    by (split; [reflexivity | split; [discriminate | reflexivity]]).
  assert (Htab : forall v, v < 64 -> plain (table_b2a_base64 v)).
  { intros v Hv. destruct (table_b2a_range v Hv) as (H1 & _ & H2 & H3).
    repeat split; assumption. }
  induction content as [|a|a b|a b c content IH] using list_ind3.
  - constructor.
  - pose proof (Byte.to_N_bounded a) as Ha.
    cbn [b64encode].
    repeat apply Forall_cons; try apply Forall_nil; try exact Hpad; apply Htab.
    + rewrite sextet_1; lia_divmod.
    + rewrite sextet_2_pad; lia_divmod.
  - pose proof (Byte.to_N_bounded a) as Ha. pose proof (Byte.to_N_bounded b) as Hb.
    cbn [b64encode].
    repeat apply Forall_cons; try apply Forall_nil; try exact Hpad; apply Htab.
    + rewrite sextet_1; lia_divmod.
    + rewrite sextet_2 by lia; lia_divmod.
    + rewrite sextet_3_pad; lia_divmod.
  - pose proof (Byte.to_N_bounded a) as Ha. pose proof (Byte.to_N_bounded b) as Hb.
    pose proof (Byte.to_N_bounded c) as Hc.
    cbn [b64encode app].
    repeat apply Forall_cons; try exact IH; apply Htab.
    + rewrite sextet_1; lia_divmod.
    + rewrite sextet_2 by lia; lia_divmod.
    + rewrite sextet_3 by lia; lia_divmod.
    + rewrite land_63; lia_divmod.
Qed.

Lemma plain_ascii (s : str) : Forall plain s -> forallb (fun c => c <? 128) s = true.
Proof.
  induction 1 as [|c s (Hc & _) _ IH]; simpl; [reflexivity|].
  rewrite IH, andb_true_r. now apply N.ltb_lt.
Qed.

(** Decoding inverts encoding. *)
Lemma b64decode_b64encode (content : bytes) : b64decode (b64encode content) = Ok content.
Proof.
  unfold b64decode.
  rewrite (plain_ascii _ (b64encode_plain content)).
  apply (a2b_b2a_loop content []).
Qed.

(** ** Searching and stripping *)

Lemma startswith_nth (p s : str) :
  startswith p s = true ->
  forall (k : nat) (x : N), nth_error p k = Some x -> nth_error s k = Some x.
Proof.
  revert s. induction p as [|y p IH]; intros s H k x Hk.
  - destruct k; discriminate.
  - destruct s as [|z s]; [discriminate|]. simpl in H.
    apply andb_true_iff in H as [Hyz Hps]. apply N.eqb_eq in Hyz. subst z.
    destruct k as [|k]; [exact Hk|]. simpl in *. now apply (IH s).
Qed.

Lemma startswith_In (p s : str) :
  startswith p s = true -> forall x, In x p -> In x s.
Proof.
  revert s. induction p as [|y p IH]; intros s H x Hx; [contradiction|].
  destruct s as [|z s]; [discriminate|]. simpl in H.
  apply andb_true_iff in H as [Hyz Hps]. apply N.eqb_eq in Hyz. subst z.
  destruct Hx as [-> | Hx]; [now left | right; now apply (IH s)].
Qed.

(** A pattern with a character that the text lacks does not occur in it. *)
Lemma find_None_char (p s : str) (x : N) :
  In x p -> ~ In x s -> find p s = None.
Proof.
  intros Hp. induction s as [|c s IH]; intros Hs.
  - simpl. destruct (startswith p []) eqn:H; [|reflexivity].
    exfalso. apply Hs. now apply (startswith_In p []).
  - simpl find. destruct (startswith p (c :: s)) eqn:H.
    + exfalso. apply Hs. now apply (startswith_In p (c :: s)).
    + rewrite IH; [reflexivity|]. intros Hin. apply Hs. now right.
Qed.

Lemma plain_not_underscore (e : str) (k : nat) :
  Forall plain e -> nth_error e k <> Some 95.
Proof.
  intros He Hk. apply nth_error_In in Hk.
  rewrite Forall_forall in He. destruct (He _ Hk) as (_ & H & _). now apply H.
Qed.

(** In a text without underscores that is followed by a newline and the
    closing sentinel, the sentinel is first found right after the newline. *)
Lemma find_END_after_plain (e post : str) :
  Forall plain e ->
  find BASE64_END (e ++ nl ++ BASE64_END ++ post) = Some (List.length e + 1)%nat.
Proof.
  induction e as [|c e IH]; intros He.
  - cbn [app nl List.length]. rewrite find_skip by reflexivity.
    now rewrite find_startswith by apply startswith_app.
  - cbn [app]. rewrite find_skip.
    + inversion He; subst. now rewrite IH.
    + destruct (startswith BASE64_END (c :: e ++ nl ++ BASE64_END ++ post)) eqn:H;
        [exfalso | reflexivity].
      pose proof (startswith_nth _ _ H 6%nat 95 eq_refl) as H6.
      destruct e as [|c1 [|c2 [|c3 [|c4 [|c5 [|c6 e]]]]]];
        try discriminate H6.
      apply (plain_not_underscore _ 6 He). exact H6.
Qed.

Lemma lstrip_spaces (ws s : str) :
  Forall (fun c => isspace c = true) ws -> lstrip (ws ++ s) = lstrip s.
Proof.
  induction 1 as [|c ws Hc _ IH]; [reflexivity|].
  cbn [app lstrip]. rewrite Hc. exact IH.
Qed.

Lemma lstrip_all_spaces (ws : str) :
  Forall (fun c => isspace c = true) ws -> lstrip ws = [].
Proof.
  induction 1 as [|c ws Hc _ IH]; [reflexivity|].
  cbn [app lstrip]. rewrite Hc. exact IH.
Qed.

Lemma lstrip_head (c : N) (s : str) : isspace c = false -> lstrip (c :: s) = c :: s.
Proof. intros H. cbn [lstrip]. now rewrite H. Qed.

Lemma strip_framed (ws1 core ws2 : str) :
  Forall (fun c => isspace c = true) ws1 ->
  Forall (fun c => isspace c = true) ws2 ->
  Forall plain core ->
  strip (ws1 ++ core ++ ws2) = core.
Proof.
  intros H1 H2 Hcore. unfold strip, rstrip. rewrite lstrip_spaces by exact H1.
  destruct core as [|c core].
  - cbn [app]. rewrite (lstrip_all_spaces ws2 H2). reflexivity.
  - inversion Hcore as [|? ? (_ & _ & Hc) Hrest]; subst.
    cbn [app]. rewrite lstrip_head by exact Hc.
    change (c :: core ++ ws2) with ((c :: core) ++ ws2).
    rewrite rev_app_distr, lstrip_spaces by (now apply Forall_rev).
    assert (Hrev : Forall plain (rev (c :: core))) by (now apply Forall_rev).
    destruct (rev (c :: core)) as [|d t] eqn:Hd.
    + apply (f_equal (@List.length N)) in Hd. rewrite length_rev in Hd. discriminate.
    + inversion Hrev as [|? ? (_ & _ & Hdsp) _]; subst.
      rewrite lstrip_head by exact Hdsp. rewrite <- Hd. apply rev_involutive.
Qed.

Lemma firstn_length_app {A} (a b : list A) : firstn (List.length a) (a ++ b) = a.
Proof. induction a as [|x a IH]; simpl; [now destruct b | now rewrite IH]. Qed.

Lemma skipn_length_app {A} (a b : list A) : skipn (List.length a) (a ++ b) = b.
Proof. induction a as [|x a IH]; simpl; [reflexivity | exact IH]. Qed.

(** The slice from the end of [pre] to the end of [mid] is [mid]. *)
Lemma slice_between (pre mid post : str) :
  slice (List.length pre) (List.length (pre ++ mid)) (pre ++ mid ++ post) = mid.
Proof.
  unfold slice. rewrite app_assoc, firstn_length_app. apply skipn_length_app.
Qed.

(** ** The frame around an encoded file *)

Lemma framed_no_space (content : bytes) : ~ In 32 (framed_stdout content).
Proof.
  unfold framed_stdout. rewrite !in_app_iff.
  assert (Henc : ~ In 32 (b64encode content)).
  { intros Hin. pose proof (b64encode_plain content) as Hp.
    rewrite Forall_forall in Hp. destruct (Hp _ Hin) as (_ & _ & Hsp). discriminate. }
  assert (Hlit : forall s, forallb (fun c => negb (c =? 32)) s = true -> ~ In 32 s).
  { intros s Hs Hin. rewrite forallb_forall in Hs. specialize (Hs _ Hin). discriminate. }
  intros [H | [H | [H | [H | [H | H]]]]].
  all: try (apply Henc; exact H).
  all: revert H; apply Hlit; reflexivity.
Qed.

Lemma framed_find_START (encoded post : str) :
  find BASE64_START (framed encoded post) = Some 0%nat.
Proof. apply find_startswith. apply startswith_app. Qed.

Lemma framed_find_END (encoded post : str) :
  Forall plain encoded ->
  find BASE64_END (framed encoded post)
  = Some (List.length BASE64_START + 1 + List.length encoded + 1)%nat.
Proof.
  intros Hplain. unfold framed.
  change (BASE64_START ++ nl ++ encoded ++ nl ++ BASE64_END ++ post)
    with (66 :: 65 :: 83 :: 69 :: 54 :: 52 :: 95 :: 83 :: 84 :: 65 :: 82 :: 84 :: 10
          :: (encoded ++ nl ++ BASE64_END ++ post)).
  do 13 (rewrite find_skip by reflexivity).
  rewrite find_END_after_plain by exact Hplain.
  reflexivity.
Qed.

Lemma framed_encoded_content (encoded post : str) :
  Forall plain encoded ->
  encoded_content (framed encoded post) = Ok encoded.
Proof.
  intros Hplain. unfold encoded_content, index.
  rewrite framed_find_START, framed_find_END by exact Hplain. f_equal.
  unfold framed.
  replace (List.length BASE64_START + 1 + List.length encoded + 1)%nat
    with (List.length (BASE64_START ++ nl ++ encoded ++ nl))
    by (rewrite !length_app; simpl; lia).
  replace (BASE64_START ++ nl ++ encoded ++ nl ++ BASE64_END ++ post)
    with (BASE64_START ++ (nl ++ encoded ++ nl) ++ BASE64_END ++ post)
    by (now rewrite <- !app_assoc).
  rewrite Nat.add_0_l.
  rewrite (slice_between BASE64_START (nl ++ encoded ++ nl) (BASE64_END ++ post)).
  apply strip_framed; try (repeat constructor). exact Hplain.
Qed.

Lemma framed_decoded_content (content : bytes) (post : str) :
  decoded_content (framed (b64encode content) post) = Ok content.
Proof.
  unfold decoded_content.
  rewrite framed_encoded_content by apply b64encode_plain.
  apply b64decode_b64encode.
Qed.

Lemma framed_no_error_line (content : bytes) :
  contains FILE_NOT_FOUND (framed_stdout content) = false.
Proof.
  unfold contains.
  rewrite (find_None_char FILE_NOT_FOUND (framed_stdout content) 32);
    [reflexivity | | apply framed_no_space].
  unfold FILE_NOT_FOUND. cbn. tauto.
Qed.

(** ** White space and the decoder *)

Lemma isspace_skipped (c : N) :
  isspace c = true -> (c =? BASE64_PAD) = false /\ table_a2b_base64 c = None.
Proof.
  intros Hsp.
  assert (Hc : c <= 32 \/ 133 <= c).
  { destruct (N.le_gt_cases c 32) as [H | H]; [now left|].
    destruct (N.le_gt_cases 133 c) as [H' | H']; [now right|].
    rewrite isspace_visible in Hsp by lia. discriminate. }
  unfold BASE64_PAD, table_a2b_base64. split; cmp.
Qed.

Lemma loop_skip (c : N) (s : str) (quad_pos leftchar pads : N) (bin_data : bytes) :
  isspace c = true ->
  a2b_base64_loop (c :: s) quad_pos leftchar pads bin_data
  = a2b_base64_loop s quad_pos leftchar pads bin_data.
Proof.
  intros Hsp. destruct (isspace_skipped c Hsp) as [Hpad Htab].
  cbn [a2b_base64_loop]. now rewrite Hpad, Htab.
Qed.

Lemma loop_spaces_prefix (ws s : str) (quad_pos leftchar pads : N) (bin_data : bytes) :
  Forall (fun c => isspace c = true) ws ->
  a2b_base64_loop (ws ++ s) quad_pos leftchar pads bin_data
  = a2b_base64_loop s quad_pos leftchar pads bin_data.
Proof.
  induction 1 as [|c ws Hc _ IH]; [reflexivity|].
  cbn [app]. now rewrite loop_skip.
Qed.

Lemma loop_spaces_suffix (ws s : str) (quad_pos leftchar pads : N) (bin_data : bytes) :
  Forall (fun c => isspace c = true) ws ->
  a2b_base64_loop (s ++ ws) quad_pos leftchar pads bin_data
  = a2b_base64_loop s quad_pos leftchar pads bin_data.
Proof.
  intros Hws. revert quad_pos leftchar pads bin_data.
  induction s as [|c s IH]; intros quad_pos leftchar pads bin_data.
  - rewrite <- (app_nil_r ws) at 1. cbn [app]. now apply loop_spaces_prefix.
  - cbn [app a2b_base64_loop].
    repeat match goal with
           | |- context [if ?b then _ else _] => destruct b
           | |- context [match table_a2b_base64 ?x with _ => _ end] =>
               destruct (table_a2b_base64 x)
           end; rewrite ?IH; reflexivity.
Qed.

Lemma lstrip_decomp (s : str) :
  exists ws, Forall (fun c => isspace c = true) ws /\ s = ws ++ lstrip s.
Proof.
  induction s as [|c s (ws & Hws & Hs)].
  - exists []. now split.
  - cbn [lstrip]. destruct (isspace c) eqn:Hc.
    + exists (c :: ws). split; [now constructor | cbn [app]; now rewrite <- Hs].
    + exists []. now split.
Qed.

Lemma strip_decomp (s : str) :
  exists ws1 ws2,
    Forall (fun c => isspace c = true) ws1
    /\ Forall (fun c => isspace c = true) ws2
    /\ s = ws1 ++ strip s ++ ws2.
Proof.
  destruct (lstrip_decomp s) as (ws1 & H1 & Hs).
  destruct (lstrip_decomp (rev (lstrip s))) as (ws2 & H2 & Hr).
  exists ws1, (rev ws2). repeat split; [exact H1 | now apply Forall_rev |].
  unfold strip, rstrip. rewrite <- rev_app_distr, <- Hr, rev_involutive. exact Hs.
Qed.

(** Stripping does not change what the decoder returns. *)
Lemma b64decode_strip (s : str) (content : bytes) :
  b64decode s = Ok content -> b64decode (strip s) = Ok content.
Proof.
  unfold b64decode. intros H.
  destruct (strip_decomp s) as (ws1 & ws2 & H1 & H2 & Hs).
  destruct (forallb (fun c => c <? 128) s) eqn:Hascii; [|discriminate].
  rewrite Hs in Hascii. rewrite !forallb_app in Hascii.
  apply andb_true_iff in Hascii as [_ Hascii].
  apply andb_true_iff in Hascii as [Hascii _]. rewrite Hascii.
  rewrite Hs in H. rewrite loop_spaces_prefix in H by exact H1.
  now rewrite loop_spaces_suffix in H by exact H2.
Qed.

Lemma b64decode_between_newlines (v : str) (content : bytes) :
  b64decode v = Ok content -> b64decode (strip (nl ++ v ++ nl)) = Ok content.
Proof.
  intros H. apply b64decode_strip. unfold b64decode in *.
  destruct (forallb (fun c => c <? 128) v) eqn:Hascii; [|discriminate].
  rewrite !forallb_app, Hascii. cbn [forallb nl N.ltb N.compare Pos.compare andb].
  assert (Hnl : Forall (fun c => isspace c = true) nl) by (repeat constructor).
  rewrite (loop_spaces_prefix nl) by exact Hnl.
  rewrite loop_spaces_suffix by exact Hnl. exact H.
Qed.

(** ** The loop of the helper *)

Lemma find_contains (p s : str) (i : nat) : find p s = Some i -> contains p s = true.
Proof. unfold contains. now intros ->. Qed.

Lemma scan_skip (E : Env) (local_path : str) (i : OutputItem) (rest : list OutputItem) :
  decisive i = false ->
  scan_outputs E local_path (i :: rest) = scan_outputs E local_path rest.
Proof.
  unfold decisive, is_stdout. intros H. cbn [scan_outputs].
  destruct (str_eqb (type i) (lit "stdout")); [|reflexivity].
  cbn [andb] in H. apply orb_false_iff in H as [He Hs]. now rewrite He, Hs.
Qed.

Lemma scan_skipped (E : Env) (local_path : str) (skipped rest : list OutputItem) :
  Forall (fun i => decisive i = false) skipped ->
  scan_outputs E local_path (skipped ++ rest) = scan_outputs E local_path rest.
Proof.
  induction 1 as [|i skipped Hi _ IH]; [reflexivity|].
  cbn [app]. now rewrite scan_skip.
Qed.

Lemma scan_error (E : Env) (local_path : str) (i : OutputItem) (rest : list OutputItem) :
  is_stdout i = true ->
  contains FILE_NOT_FOUND (data i) = true ->
  scan_outputs E local_path (i :: rest) = ret false.
Proof.
  unfold is_stdout. intros Ho He. cbn [scan_outputs]. now rewrite Ho, He.
Qed.

Lemma scan_payload (E : Env) (local_path : str) (i : OutputItem) (rest : list OutputItem) :
  is_stdout i = true ->
  contains FILE_NOT_FOUND (data i) = false ->
  contains BASE64_START (data i) && contains BASE64_END (data i) = true ->
  scan_outputs E local_path (i :: rest)
  = bind (lift (decoded_content (data i)))
      (fun decoded =>
         bind (os_makedirs E (target_dir E local_path))
           (fun _ => bind (open_wb_write E local_path decoded) (fun _ => ret true))).
Proof.
  unfold is_stdout. intros Ho He Hs. cbn [scan_outputs]. now rewrite Ho, He, Hs.
Qed.

(** Without a stdout item that holds both sentinels the loop never writes
    and ends with [False]. *)
Lemma scan_no_sentinels (E : Env) (local_path : str) (items : list OutputItem)
    (w : World E) :
  Forall (fun i => is_stdout i = true ->
                   contains BASE64_START (data i) && contains BASE64_END (data i) = false)
         items ->
  scan_outputs E local_path items w = (Ok false, w).
Proof.
  induction 1 as [|i items Hi _ IH]; [reflexivity|].
  cbn [scan_outputs]. fold (is_stdout i).
  destruct (is_stdout i); [|exact IH].
  destruct (contains FILE_NOT_FOUND (data i)); [reflexivity|].
  now rewrite Hi.
Qed.

Lemma download_reply (E : Env) (filename local_path : str) (w w1 : World E)
    (r : ExecutionResult) :
  execute E (download_script filename) (lit "python") false w = (Ok r, w1) ->
  download_file_from_sandbox E filename local_path w
  = try_except (scan_outputs E local_path (outputs r)) (fun _ => ret false) w1.
Proof.
  intros H. unfold download_file_from_sandbox, try_except, bind. now rewrite H.
Qed.







Lemma scan_map_reply (g : ExecutionResult -> ExecutionResult) (E : Env)
    (local_path : str) (items : list OutputItem) :
  scan_outputs (map_reply g E) local_path items = scan_outputs E local_path items.
Proof.
  induction items as [|i items IH]; [reflexivity|].
  cbn [scan_outputs]. now rewrite IH.
Qed.

(* ================================================================== *)
(** ** The file-transfer helper *)

(** C6, as amended: the helper acts on the first stdout item of the reply
    that holds the error line or both sentinels.  If that item does not hold
    the error line and reads [pre ++ "BASE64_START\n" ++ v ++ "\nBASE64_END"
    ++ post], these being the first occurrences of the two sentinels in it,
    and [v] decodes to [content], then the helper creates the target
    directory, writes exactly [content] to [local_path] and returns [True]
    (given that both file-system steps succeed).  If the item holds
    "ERROR: File not found", the helper returns [False] and the world is the
    one the remote call left: nothing is created or written. *)
Theorem download_first_decisive_item (E : Env) (filename local_path : str)
    (w w1 : World E) (r : ExecutionResult)
    (skipped : list OutputItem) (item : OutputItem) (rest : list OutputItem) :
  execute E (download_script filename) (lit "python") false w = (Ok r, w1) ->
  outputs r = skipped ++ item :: rest ->
  Forall (fun i => decisive i = false) skipped ->
  is_stdout item = true ->
  (forall (pre v post : str) (content : bytes) (w2 w3 : World E),
     data item = pre ++ BASE64_START ++ nl ++ v ++ nl ++ BASE64_END ++ post ->
     contains FILE_NOT_FOUND (data item) = false ->
     find BASE64_START (data item) = Some (List.length pre) ->
     find BASE64_END (data item)
       = Some (List.length (pre ++ BASE64_START ++ nl ++ v ++ nl)) ->
     b64decode v = Ok content ->
     os_makedirs E (target_dir E local_path) w1 = (Ok tt, w2) ->
     open_wb_write E local_path content w2 = (Ok tt, w3) ->
     download_file_from_sandbox E filename local_path w = (Ok true, w3))
  /\ (contains FILE_NOT_FOUND (data item) = true ->
      download_file_from_sandbox E filename local_path w = (Ok false, w1)).
Proof.
  intros Hcall Hout Hskip Hstdout.
  rewrite (download_reply E filename local_path w w1 r Hcall), Hout.
  unfold try_except. rewrite scan_skipped by exact Hskip. split.
  - intros pre v post content w2 w3 Hdata Herr Hstart Hend Hdec Hmk Hwr.
    rewrite scan_payload;
      [| exact Hstdout | exact Herr
       | now rewrite (find_contains _ _ _ Hstart), (find_contains _ _ _ Hend)].
    assert (Hdecoded : decoded_content (data item) = Ok content).
    { unfold decoded_content, encoded_content, index.
      rewrite Hstart, Hend.
      replace (List.length pre + List.length BASE64_START)%nat
        with (List.length (pre ++ BASE64_START)) by apply length_app.
      replace (List.length (pre ++ BASE64_START ++ nl ++ v ++ nl))
        with (List.length ((pre ++ BASE64_START) ++ nl ++ v ++ nl))
        by (now rewrite <- app_assoc).
      rewrite Hdata.
      replace (pre ++ BASE64_START ++ nl ++ v ++ nl ++ BASE64_END ++ post)
        with ((pre ++ BASE64_START) ++ (nl ++ v ++ nl) ++ BASE64_END ++ post)
        by (now rewrite <- !app_assoc).
      rewrite slice_between. now apply b64decode_between_newlines. }
    unfold bind, lift. now rewrite Hdecoded, Hmk, Hwr.
  - intros Herr. now rewrite scan_error.
Qed.

Lemma download_first_decisive_item_witness :
  download_file_from_sandbox
    (Mem.env (Ok (mkExecutionResult (lit "completed")
       [Mem.stderr (lit "warning");
        Mem.stdout (BASE64_START ++ nl ++ lit "QUJD" ++ nl ++ BASE64_END ++ nl)]
       None)))
    (lit "/tmp/chart.png") (lit "output/chart.png") Mem.empty
  = (Ok true,
     Mem.mkFS [(lit "output/chart.png", [x41; x42; x43])] [lit "output"])
  /\ download_file_from_sandbox
       (Mem.env (Ok (mkExecutionResult (lit "completed")
          [Mem.stdout (FILE_NOT_FOUND ++ nl)] None)))
       (lit "/tmp/chart.png") (lit "output/chart.png") Mem.empty
     = (Ok false, Mem.empty).
Proof.
  split.
  - refine (proj1 (download_first_decisive_item
             (Mem.env (Ok (mkExecutionResult (lit "completed")
                [Mem.stderr (lit "warning");
                 Mem.stdout (BASE64_START ++ nl ++ lit "QUJD" ++ nl ++ BASE64_END ++ nl)]
                None)))
             (lit "/tmp/chart.png") (lit "output/chart.png") Mem.empty Mem.empty
             (mkExecutionResult (lit "completed")
                [Mem.stderr (lit "warning");
                 Mem.stdout (BASE64_START ++ nl ++ lit "QUJD" ++ nl ++ BASE64_END ++ nl)]
                None)
             [Mem.stderr (lit "warning")]
             (Mem.stdout (BASE64_START ++ nl ++ lit "QUJD" ++ nl ++ BASE64_END ++ nl))
             [] eq_refl eq_refl _ eq_refl)
            [] (lit "QUJD") nl [x41; x42; x43]
            (Mem.mkFS [] [lit "output"])
            (Mem.mkFS [(lit "output/chart.png", [x41; x42; x43])] [lit "output"])
            eq_refl eq_refl eq_refl eq_refl eq_refl eq_refl eq_refl).
    repeat constructor.
  - refine (proj2 (download_first_decisive_item
             (Mem.env (Ok (mkExecutionResult (lit "completed")
                [Mem.stdout (FILE_NOT_FOUND ++ nl)] None)))
             (lit "/tmp/chart.png") (lit "output/chart.png") Mem.empty Mem.empty
             (mkExecutionResult (lit "completed")
                [Mem.stdout (FILE_NOT_FOUND ++ nl)] None)
             [] (Mem.stdout (FILE_NOT_FOUND ++ nl)) []
             eq_refl eq_refl _ eq_refl) eq_refl).
    constructor.
Defined.

(** C6, as stated, fails: this stdout text contains
    "BASE64_START\nQUJD\nBASE64_END" and "QUJD" decodes to the bytes "ABC",
    but the closing sentinel also occurs before the opening one, the slice
    between the first occurrences is empty, and the helper writes an empty
    file and returns [True]. *)
Lemma download_sentinel_before_frame :
  download_file_from_sandbox
    (Mem.env (Ok (mkExecutionResult (lit "completed")
       [Mem.stdout (BASE64_END ++ nl ++ BASE64_START ++ nl ++ lit "QUJD" ++ nl ++ BASE64_END)]
       None)))
    (lit "/tmp/chart.png") (lit "output/chart.png") Mem.empty
  = (Ok true, Mem.mkFS [(lit "output/chart.png", [])] [lit "output"])
  /\ contains (BASE64_START ++ nl ++ lit "QUJD" ++ nl ++ BASE64_END)
       (BASE64_END ++ nl ++ BASE64_START ++ nl ++ lit "QUJD" ++ nl ++ BASE64_END) = true
  /\ b64decode (lit "QUJD") = Ok [x41; x42; x43].
Proof. repeat split. Qed.

(** C7: for every byte sequence, the empty one and those with newline bytes
    included, encoding it, putting the encoding between the two sentinel
    lines and running the extraction of the helper (slice between the first
    occurrences of the sentinels, strip, decode) gives the original bytes
    back, whatever follows the closing sentinel.  For the text that the
    sandbox script prints, the steps are spelled out: it does not hold the
    error line, the opening sentinel is found at its start and the closing
    one right after the encoding, and the stripped slice is the encoding. *)
Theorem framed_stdout_roundtrip (content : bytes) :
  (forall post : str, decoded_content (framed (b64encode content) post) = Ok content)
  /\ contains FILE_NOT_FOUND (framed_stdout content) = false
  /\ find BASE64_START (framed_stdout content) = Some 0%nat
  /\ find BASE64_END (framed_stdout content)
     = Some (List.length BASE64_START + 1 + List.length (b64encode content) + 1)%nat
  /\ encoded_content (framed_stdout content) = Ok (b64encode content)
  /\ decoded_content (framed_stdout content) = Ok content.
Proof.
  split; [|split; [|split; [|split; [|split]]]].
  - intros post. apply framed_decoded_content.
  - apply framed_no_error_line.
  - apply (framed_find_START (b64encode content) nl).
  - apply (framed_find_END (b64encode content) nl), b64encode_plain.
  - apply (framed_encoded_content (b64encode content) nl), b64encode_plain.
  - apply (framed_decoded_content content nl).
Qed.

(** The whole path: when the sandbox answers with the text its script prints
    for a file holding [content], the helper writes [content]. *)
Corollary download_framed_file (E : Env) (filename local_path : str)
    (w w1 w2 w3 : World E) (r : ExecutionResult) (content : bytes) :
  execute E (download_script filename) (lit "python") false w = (Ok r, w1) ->
  outputs r = [mkOutputItem (lit "stdout") (framed_stdout content)] ->
  os_makedirs E (target_dir E local_path) w1 = (Ok tt, w2) ->
  open_wb_write E local_path content w2 = (Ok tt, w3) ->
  download_file_from_sandbox E filename local_path w = (Ok true, w3).
Proof.
  intros Hcall Hout Hmk Hwr.
  rewrite (download_reply E filename local_path w w1 r Hcall), Hout.
  unfold try_except. rewrite scan_payload.
  - cbn [data]. unfold bind, lift.
    change (framed_stdout content) with (framed (b64encode content) nl).
    now rewrite (framed_decoded_content content nl), Hmk, Hwr.
  - reflexivity.
  - apply framed_no_error_line.
  - cbn [data].
    change (framed_stdout content) with (framed (b64encode content) nl).
    rewrite (find_contains _ _ _ (framed_find_START (b64encode content) nl)).
    now rewrite (find_contains _ _ _
                   (framed_find_END (b64encode content) nl (b64encode_plain content))).
Qed.




(** C10: the helper never reads the status of the reply.  Replacing every
    reply of the sandbox by one with the same outputs (another status, for
    instance "error" or "failed") changes neither the boolean returned nor
    the world the helper leaves behind, so the same file is written. *)
Theorem download_ignores_status (E : Env) (g : ExecutionResult -> ExecutionResult)
    (filename local_path : str) (w : World E) :
  (forall r, outputs (g r) = outputs r) ->
  download_file_from_sandbox (map_reply g E) filename local_path w
  = download_file_from_sandbox E filename local_path w.
Proof.
  intros Hg. unfold download_file_from_sandbox, try_except, bind.
  cbn [execute map_reply].
  destruct (execute E (download_script filename) (lit "python") false w)
    as [[r | e | s] w1]; [|reflexivity|reflexivity].
  now rewrite Hg, scan_map_reply.
Qed.

Lemma download_ignores_status_witness :
  download_file_from_sandbox
    (map_reply (set_status (lit "failed"))
       (Mem.env (Ok (mkExecutionResult (lit "completed")
          [Mem.stdout (BASE64_START ++ nl ++ lit "QUJD" ++ nl ++ BASE64_END ++ nl)] None))))
    (lit "/tmp/chart.png") (lit "output/chart.png") Mem.empty
  = (Ok true, Mem.mkFS [(lit "output/chart.png", [x41; x42; x43])] [lit "output"])
  /\ download_file_from_sandbox
       (Mem.env (Ok (mkExecutionResult (lit "failed")
          [Mem.stdout (BASE64_START ++ nl ++ lit "QUJD" ++ nl ++ BASE64_END ++ nl)] None)))
       (lit "/tmp/chart.png") (lit "output/chart.png") Mem.empty
     = (Ok true, Mem.mkFS [(lit "output/chart.png", [x41; x42; x43])] [lit "output"]).
Proof.
  split; [|reflexivity].
  exact (eq_trans
           (download_ignores_status
              (Mem.env (Ok (mkExecutionResult (lit "completed")
                 [Mem.stdout (BASE64_START ++ nl ++ lit "QUJD" ++ nl ++ BASE64_END ++ nl)]
                 None)))
              (set_status (lit "failed"))
              (lit "/tmp/chart.png") (lit "output/chart.png") Mem.empty
              (fun r => eq_refl))
           eq_refl).
Defined.

(* ================================================================== *)
(** * Further properties *)

(** ** Requests made by the adapters *)

(** Each adapter makes exactly one request to the sandbox on every path,
    also when the request raises (nothing is retried): [execute_code] with
    the caller's code and language and networking off,
    [execute_code_with_network] with networking on, and
    [execute_python_analysis] with the language fixed to "python" and
    networking off.  Text and world are those of the run without the log. *)
Theorem adapters_one_request (E : Env) (code language : str) (w : World E)
    (log : list Event) :
  execute_code (logged E) code language (w, log)
  = (fst (execute_code E code language w),
     (snd (execute_code E code language w), log ++ [Request code language false]))
  /\ execute_code_with_network (logged E) code language (w, log)
     = (fst (execute_code_with_network E code language w),
        (snd (execute_code_with_network E code language w),
         log ++ [Request code language true]))
  /\ execute_python_analysis (logged E) code (w, log)
     = (fst (execute_python_analysis E code w),
        (snd (execute_python_analysis E code w),
         log ++ [Request code (lit "python") false])).
Proof.
  unfold execute_code, execute_code_with_network, execute_python_analysis,
    try_except, bind.
  cbn [execute logged fst snd].
  split; [|split].
  - destruct (execute E code language false w) as [[r | e | s] w1]; [|reflexivity|reflexivity].
    destruct (is_failure (status r)); [reflexivity|].
    destruct (truthy (result_parts r)); reflexivity.
  - destruct (execute E code language true w) as [[r | e | s] w1]; [|reflexivity|reflexivity].
    destruct (is_failure (status r)); [reflexivity|].
    destruct (truthy (result_parts r)); reflexivity.
  - destruct (execute E code (lit "python") false w) as [[r | e | s] w1]; [|reflexivity|reflexivity].
    destruct (is_failure (status r)); [reflexivity|].
    destruct (truthy (result_parts r)); reflexivity.
Qed.

(** ** What the text of [execute_code] depends on *)

(** The text of [execute_code] is fixed by the status of the reply, the
    sequence of its stdout data, the sequence of its stderr data and the
    execution time: how stdout and stderr items were interleaved, and items
    of any other type, leave no trace in it. *)
Theorem execute_code_same_streams (E1 E2 : Env) (code1 language1 code2 language2 : str)
    (w1 w1' : World E1) (w2 w2' : World E2) (r1 r2 : ExecutionResult) :
  execute E1 code1 language1 false w1 = (Ok r1, w1') ->
  execute E2 code2 language2 false w2 = (Ok r2, w2') ->
  status r1 = status r2 ->
  stdout_items (outputs r1) = stdout_items (outputs r2) ->
  stderr_items (outputs r1) = stderr_items (outputs r2) ->
  getattr_execution_time_ms r1 0 = getattr_execution_time_ms r2 0 ->
  fst (execute_code E1 code1 language1 w1) = fst (execute_code E2 code2 language2 w2).
Proof.
  intros H1 H2 Hst Hout Herr Htime.
  rewrite (execute_code_reply E1 code1 language1 w1 w1' r1 H1).
  rewrite (execute_code_reply E2 code2 language2 w2 w2' r2 H2).
  cbn [fst]. unfold no_output_message.
  now rewrite !result_parts_blocks, Hst, Hout, Herr, Htime.
Qed.

Lemma execute_code_same_streams_witness :
  fst (execute_code
         (Mem.env (Ok (mkExecutionResult (lit "completed")
            [Mem.stdout (lit "a"); Mem.stderr (lit "warn"); Mem.stdout (lit "b")] None)))
         (lit "run()") (lit "python") Mem.empty)
  = fst (execute_code
           (Mem.env (Ok (mkExecutionResult (lit "completed")
              [Mem.stderr (lit "warn"); mkOutputItem (lit "image") (lit "png");
               Mem.stdout (lit "a"); Mem.stdout (lit "b")] (Some 0%Z))))
           (lit "run()") (lit "python") Mem.empty).
Proof.
  exact (execute_code_same_streams
           (Mem.env (Ok (mkExecutionResult (lit "completed")
              [Mem.stdout (lit "a"); Mem.stderr (lit "warn"); Mem.stdout (lit "b")] None)))
           (Mem.env (Ok (mkExecutionResult (lit "completed")
              [Mem.stderr (lit "warn"); mkOutputItem (lit "image") (lit "png");
               Mem.stdout (lit "a"); Mem.stdout (lit "b")] (Some 0%Z))))
           (lit "run()") (lit "python") (lit "run()") (lit "python")
           Mem.empty Mem.empty Mem.empty Mem.empty
           (mkExecutionResult (lit "completed")
              [Mem.stdout (lit "a"); Mem.stderr (lit "warn"); Mem.stdout (lit "b")] None)
           (mkExecutionResult (lit "completed")
              [Mem.stderr (lit "warn"); mkOutputItem (lit "image") (lit "png");
               Mem.stdout (lit "a"); Mem.stdout (lit "b")] (Some 0%Z))
           eq_refl eq_refl eq_refl eq_refl eq_refl eq_refl).
Defined.

(** ** The general shape of a successful reply *)

(** For a reply with a non-failing status, [execute_code] returns: the stdout
    data joined by newlines when there is no stderr item; "Errors:" and, on
    the next line, the stderr data joined by newlines when there is no
    stdout item; and the first followed by a blank line and the second when
    there are both.  The order of the data within each stream is that of the
    reply. *)
Theorem execute_code_text_shape (E : Env) (code language : str)
    (w w' : World E) (r : ExecutionResult) (o e : str) (out err : list str) :
  execute E code language false w = (Ok r, w') ->
  non_failing r ->
  (stdout_items (outputs r) = o :: out -> stderr_items (outputs r) = [] ->
   execute_code E code language w = (Ok (join nl (o :: out)), w'))
  /\ (stdout_items (outputs r) = [] -> stderr_items (outputs r) = e :: err ->
      execute_code E code language w
      = (Ok (lit "Errors:" ++ nl ++ join nl (e :: err)), w'))
  /\ (stdout_items (outputs r) = o :: out -> stderr_items (outputs r) = e :: err ->
      execute_code E code language w
      = (Ok (join nl (o :: out) ++ nl ++ nl ++ lit "Errors:" ++ nl ++ join nl (e :: err)),
         w')).
Proof.
  intros Hcall Hst.
  rewrite (execute_code_reply E code language w w' r Hcall).
  rewrite (non_failing_is_failure r Hst), result_parts_blocks.
  split; [|split]; intros Hout Herr; rewrite Hout, Herr; reflexivity.
Qed.

Lemma execute_code_text_shape_witness :
  execute_code
    (Mem.env (Ok (mkExecutionResult (lit "completed")
       [Mem.stdout (lit "1"); Mem.stderr (lit "w1"); Mem.stdout (lit "2");
        Mem.stderr (lit "w2")] None)))
    (lit "run()") (lit "python") Mem.empty
  = (Ok (lit "1" ++ nl ++ lit "2" ++ nl ++ nl ++ lit "Errors:" ++ nl
         ++ lit "w1" ++ nl ++ lit "w2"), Mem.empty).
Proof.
  refine (proj2 (proj2 (execute_code_text_shape
            (Mem.env (Ok (mkExecutionResult (lit "completed")
               [Mem.stdout (lit "1"); Mem.stderr (lit "w1"); Mem.stdout (lit "2");
                Mem.stderr (lit "w2")] None)))
            (lit "run()") (lit "python") Mem.empty Mem.empty
            (mkExecutionResult (lit "completed")
               [Mem.stdout (lit "1"); Mem.stderr (lit "w1"); Mem.stdout (lit "2");
                Mem.stderr (lit "w2")] None)
            (lit "1") (lit "w1") [lit "2"] [lit "w2"] eq_refl _)) eq_refl eq_refl).
  split; discriminate.
Defined.

(** ** The two other adapters *)

(** On a reply whose status is "error" or "failed" the two other adapters
    answer like [execute_code]: with a fixed text followed by the status, the
    outputs of the reply being left unread ([execute_python_analysis] puts a
    cross mark in front). *)
Theorem sibling_adapters_failure_text (E : Env) (code language : str)
    (w w' : World E) (r : ExecutionResult) :
  status r = lit "error" \/ status r = lit "failed" ->
  (execute E code language true w = (Ok r, w') ->
   execute_code_with_network E code language w
   = (Ok (lit "Execution failed with status: " ++ status r), w'))
  /\ (execute E code (lit "python") false w = (Ok r, w') ->
      execute_python_analysis E code w
      = (Ok (cross_mark ++ lit " Execution failed with status: " ++ status r), w')).
Proof.
  intros Hst. pose proof (failing_is_failure _ Hst) as Hf.
  split; intros Hcall.
  - now rewrite (execute_code_with_network_reply E code language w w' r Hcall), Hf.
  - now rewrite (execute_python_analysis_reply E code w w' r Hcall), Hf.
Qed.

Lemma sibling_adapters_failure_text_witness :
  execute_code_with_network
    (Mem.env (Ok (mkExecutionResult (lit "failed") [Mem.stdout (lit "partial")] None)))
    (lit "fetch()") (lit "python") Mem.empty
  = (Ok (lit "Execution failed with status: failed"), Mem.empty)
  /\ execute_python_analysis
       (Mem.env (Ok (mkExecutionResult (lit "failed") [Mem.stdout (lit "partial")] None)))
       (lit "fetch()") Mem.empty
     = (Ok (cross_mark ++ lit " Execution failed with status: failed"), Mem.empty).
Proof.
  destruct (sibling_adapters_failure_text
              (Mem.env (Ok (mkExecutionResult (lit "failed")
                              [Mem.stdout (lit "partial")] None)))
              (lit "fetch()") (lit "python") Mem.empty Mem.empty
              (mkExecutionResult (lit "failed") [Mem.stdout (lit "partial")] None)
              (or_intror eq_refl)) as [H1 H2].
  exact (conj (H1 eq_refl) (H2 eq_refl)).
Defined.

(** The two other adapters behave alike at a fault of the remote call.
    Each returns a text when the call returns a result; when the call raises
    an instance of [Exception], the text ends with its message, after
    "Error executing code: " for [execute_code_with_network] and after the
    cross mark and " Execution failed: " for [execute_python_analysis], and
    the world is the one the call left; a signal outside [Exception] raised
    by the call passes the handler and reaches the caller. *)
Theorem sibling_adapters_return_unless_signal (E : Env) (code language : str)
    (w : World E) :
  ((forall (r : ExecutionResult) (w1 : World E),
       execute E code language true w = (Ok r, w1) ->
       exists text : str, execute_code_with_network E code language w = (Ok text, w1))
   /\ (forall (e : PyException) (w1 : World E),
         execute E code language true w = (Raise e, w1) ->
         execute_code_with_network E code language w
         = (Ok (lit "Error executing code: " ++ exc_str e), w1))
   /\ (forall (s : PySignal) (w1 : World E),
         execute E code language true w = (Abort s, w1) ->
         execute_code_with_network E code language w = (Abort s, w1)))
  /\ ((forall (r : ExecutionResult) (w1 : World E),
         execute E code (lit "python") false w = (Ok r, w1) ->
         exists text : str, execute_python_analysis E code w = (Ok text, w1))
      /\ (forall (e : PyException) (w1 : World E),
            execute E code (lit "python") false w = (Raise e, w1) ->
            execute_python_analysis E code w
            = (Ok (cross_mark ++ lit " Execution failed: " ++ exc_str e), w1))
      /\ (forall (s : PySignal) (w1 : World E),
            execute E code (lit "python") false w = (Abort s, w1) ->
            execute_python_analysis E code w = (Abort s, w1))).
Proof.
  split; (split; [|split]).
  - intros r w1 Hcall.
    rewrite (execute_code_with_network_reply E code language w w1 r Hcall).
    eexists. reflexivity.
  - intros e w1 Hcall.
    unfold execute_code_with_network, try_except, bind. now rewrite Hcall.
  - intros s w1 Hcall.
    unfold execute_code_with_network, try_except, bind. now rewrite Hcall.
  - intros r w1 Hcall.
    rewrite (execute_python_analysis_reply E code w w1 r Hcall).
    eexists. reflexivity.
  - intros e w1 Hcall.
    unfold execute_python_analysis, try_except, bind. now rewrite Hcall.
  - intros s w1 Hcall.
    unfold execute_python_analysis, try_except, bind. now rewrite Hcall.
Qed.

Lemma sibling_adapters_return_unless_signal_witness :
  execute_code_with_network
    (Mem.env (Raise (mkException "TimeoutError" (lit "timed out"))))
    (lit "fetch()") (lit "python") Mem.empty
  = (Ok (lit "Error executing code: timed out"), Mem.empty)
  /\ execute_python_analysis (Mem.env (Abort Mem.keyboard_interrupt))
       (lit "print(1)") Mem.empty
     = (Abort Mem.keyboard_interrupt, Mem.empty).
Proof.
  split.
  - exact (proj1 (proj2 (proj1 (sibling_adapters_return_unless_signal
             (Mem.env (Raise (mkException "TimeoutError" (lit "timed out"))))
             (lit "fetch()") (lit "python") Mem.empty)))
           (mkException "TimeoutError" (lit "timed out")) Mem.empty eq_refl).
  - exact (proj2 (proj2 (proj2 (sibling_adapters_return_unless_signal
             (Mem.env (Abort Mem.keyboard_interrupt))
             (lit "print(1)") (lit "python") Mem.empty)))
           Mem.keyboard_interrupt Mem.empty eq_refl).
Defined.

(** With a non-failing status and both kinds of output,
    [execute_python_analysis] puts its header line first and separates the
    stdout block from the error block by a single newline, where
    [execute_code] puts a blank line. *)
Theorem execute_python_analysis_text_shape (E : Env) (code : str)
    (w w' : World E) (r : ExecutionResult) (o e : str) (out err : list str) :
  execute E code (lit "python") false w = (Ok r, w') ->
  non_failing r ->
  (stdout_items (outputs r) = o :: out -> stderr_items (outputs r) = [] ->
   execute_python_analysis E code w
   = (Ok (check_mark ++ lit " Analysis complete:" ++ nl ++ join nl (o :: out)), w'))
  /\ (stdout_items (outputs r) = [] -> stderr_items (outputs r) = e :: err ->
      execute_python_analysis E code w
      = (Ok (check_mark ++ lit " Analysis complete:" ++ nl
             ++ lit "Errors:" ++ nl ++ join nl (e :: err)), w'))
  /\ (stdout_items (outputs r) = o :: out -> stderr_items (outputs r) = e :: err ->
      execute_python_analysis E code w
      = (Ok (check_mark ++ lit " Analysis complete:" ++ nl
             ++ join nl (o :: out) ++ nl ++ lit "Errors:" ++ nl ++ join nl (e :: err)),
         w'))
  /\ (stdout_items (outputs r) = [] -> stderr_items (outputs r) = [] ->
      execute_python_analysis E code w
      = (Ok (warning_sign
             ++ lit " Code executed but no output captured. Make sure to use print() statements!"),
         w')).
Proof.
  intros Hcall Hst.
  rewrite (execute_python_analysis_reply E code w w' r Hcall).
  rewrite (non_failing_is_failure r Hst), result_parts_blocks.
  split; [|split; [|split]]; intros Hout Herr; rewrite Hout, Herr; reflexivity.
Qed.

Lemma execute_python_analysis_text_shape_witness :
  execute_python_analysis
    (Mem.env (Ok (mkExecutionResult (lit "completed")
       [Mem.stdout (lit "x"); Mem.stderr (lit "boom")] None)))
    (lit "run()") Mem.empty
  = (Ok (check_mark ++ lit " Analysis complete:" ++ nl
         ++ lit "x" ++ nl ++ lit "Errors:" ++ nl ++ lit "boom"), Mem.empty).
Proof.
  refine (proj1 (proj2 (proj2 (execute_python_analysis_text_shape
            (Mem.env (Ok (mkExecutionResult (lit "completed")
               [Mem.stdout (lit "x"); Mem.stderr (lit "boom")] None)))
            (lit "run()") Mem.empty Mem.empty
            (mkExecutionResult (lit "completed")
               [Mem.stdout (lit "x"); Mem.stderr (lit "boom")] None)
            (lit "x") (lit "boom") [] [] eq_refl _))) eq_refl eq_refl).
  split; discriminate.
Defined.

(* ================================================================== *)
(** ** [save_result] *)

Lemma lit_inj (s t : string) : lit s = lit t -> s = t.
Proof.
  unfold lit. intros H.
  rewrite <- (string_of_list_ascii_of_string s), <- (string_of_list_ascii_of_string t).
  f_equal. revert H.
  generalize (list_ascii_of_string s) (list_ascii_of_string t).
  induction l as [|a l IH]; intros [|b l'] H; try discriminate; [reflexivity|].
  cbn [map] in H. injection H as Hab Hl. f_equal; [|now apply IH].
  rewrite <- (ascii_N_embedding a), <- (ascii_N_embedding b). now f_equal.
Qed.

Lemma to_int_not_nil (z : Z) :
  Z.to_int z <> Decimal.Pos Decimal.Nil /\ Z.to_int z <> Decimal.Neg Decimal.Nil.
Proof.
  split; intros H; pose proof (DecimalZ.of_to z) as Hz; rewrite H in Hz;
    cbn in Hz; subst z; discriminate H.
Qed.

(** The decimal text of an integer determines the integer. *)
Lemma str_of_int_inj (m n : Z) : str_of_int m = str_of_int n -> m = n.
Proof.
  unfold str_of_int. intros H. apply lit_inj in H.
  apply DecimalZ.to_int_inj.
  destruct (to_int_not_nil m) as [Hm1 Hm2]. destruct (to_int_not_nil n) as [Hn1 Hn2].
  pose proof (NilZero.isi _ Hm1 Hm2) as Em. pose proof (NilZero.isi _ Hn1 Hn2) as En.
  rewrite H in Em. rewrite Em in En. now injection En.
Qed.

(** [save_result] tells two contents apart by their length and by nothing
    else: for one file name, two contents get the same confirmation exactly
    when they have the same number of characters. *)
Theorem save_result_reports_length_only (filename content1 content2 : str) :
  save_result filename content1 = save_result filename content2
  <-> List.length content1 = List.length content2.
Proof.
  unfold save_result. split.
  - intros H. do 4 apply app_inv_head in H. apply app_inv_tail in H.
    apply str_of_int_inj in H. now apply Nat2Z.inj.
  - now intros ->.
Qed.

(* ================================================================== *)
(** ** More on the file-transfer helper *)

Lemma scan_first_decisive (E : Env) (local_path : str) (items : list OutputItem) :
  scan_outputs E local_path items
  = match List.find decisive items with
    | Some item => scan_outputs E local_path [item]
    | None => ret false
    end.
Proof.
  induction items as [|i items IH]; [reflexivity|].
  cbn [List.find]. destruct (decisive i) eqn:Hd.
  - unfold decisive, is_stdout in Hd. cbn [scan_outputs].
    apply andb_true_iff in Hd as [Ho Hd]. rewrite Ho.
    destruct (contains FILE_NOT_FOUND (data i)); [reflexivity|].
    cbn [orb] in Hd. now rewrite Hd.
  - now rewrite scan_skip.
Qed.

(** The helper reads one thing of a reply: the first stdout item that holds
    the error line or both sentinels.  Any change of the replies that keeps
    this item (another status, other items before or after it, items of
    other types) changes neither the boolean nor the world left behind. *)
Theorem download_reads_first_decisive_item (E : Env)
    (g : ExecutionResult -> ExecutionResult) (filename local_path : str) (w : World E) :
  (forall r w1,
      execute E (download_script filename) (lit "python") false w = (Ok r, w1) ->
      List.find decisive (outputs (g r)) = List.find decisive (outputs r)) ->
  download_file_from_sandbox (map_reply g E) filename local_path w
  = download_file_from_sandbox E filename local_path w.
Proof.
  intros Hg. unfold download_file_from_sandbox, try_except, bind.
  cbn [execute map_reply].
  destruct (execute E (download_script filename) (lit "python") false w)
    as [[r | e | s] w1]; [|reflexivity|reflexivity].
  rewrite scan_map_reply.
  rewrite (scan_first_decisive E local_path (outputs (g r))).
  rewrite (scan_first_decisive E local_path (outputs r)).
  now rewrite (Hg r w1 eq_refl).
Qed.

Lemma download_reads_first_decisive_item_witness :
  download_file_from_sandbox
    (map_reply
       (fun r => mkExecutionResult (lit "failed")
                   (Mem.stderr (BASE64_START ++ BASE64_END)
                    :: Mem.stdout (lit "loading") :: outputs r
                    ++ [Mem.stdout (FILE_NOT_FOUND ++ nl)])
                   (Some 7%Z))
       (Mem.env (Ok (mkExecutionResult (lit "completed")
          [Mem.stdout (BASE64_START ++ nl ++ lit "QUJD" ++ nl ++ BASE64_END ++ nl)] None))))
    (lit "/tmp/chart.png") (lit "output/chart.png") Mem.empty
  = (Ok true, Mem.mkFS [(lit "output/chart.png", [x41; x42; x43])] [lit "output"]).
Proof.
  refine (eq_trans
            (download_reads_first_decisive_item
               (Mem.env (Ok (mkExecutionResult (lit "completed")
                  [Mem.stdout (BASE64_START ++ nl ++ lit "QUJD" ++ nl ++ BASE64_END ++ nl)]
                  None)))
               (fun r => mkExecutionResult (lit "failed")
                           (Mem.stderr (BASE64_START ++ BASE64_END)
                            :: Mem.stdout (lit "loading") :: outputs r
                            ++ [Mem.stdout (FILE_NOT_FOUND ++ nl)])
                           (Some 7%Z))
               (lit "/tmp/chart.png") (lit "output/chart.png") Mem.empty _)
            eq_refl).
  intros r w1 H. injection H as <- _. reflexivity.
Defined.



(** When the sandbox returns the three lines of the script as three stdout
    items, one per [print], no item holds both sentinels: for every file
    content the helper returns [False] and writes nothing. *)
Theorem download_split_prints (E : Env) (filename local_path : str)
    (w w1 : World E) (r : ExecutionResult) (content : bytes) :
  execute E (download_script filename) (lit "python") false w = (Ok r, w1) ->
  outputs r = [mkOutputItem (lit "stdout") (BASE64_START ++ nl);
               mkOutputItem (lit "stdout") (b64encode content ++ nl);
               mkOutputItem (lit "stdout") (BASE64_END ++ nl)] ->
  download_file_from_sandbox E filename local_path w = (Ok false, w1).
Proof.
  intros Hcall Hout.
  rewrite (download_reply E filename local_path w w1 r Hcall), Hout.
  unfold try_except. rewrite scan_no_sentinels; [reflexivity|].
  repeat apply Forall_cons; try apply Forall_nil; intros _; cbn [data].
  - reflexivity.
  - unfold contains at 1.
    rewrite (find_None_char BASE64_START (b64encode content ++ nl) 95);
      [reflexivity | cbn; tauto |].
    rewrite in_app_iff. intros [H | [H | []]]; [|discriminate H].
    apply In_nth_error in H as [k Hk].
    now apply (plain_not_underscore _ k (b64encode_plain content)).
  - reflexivity.
Qed.

Lemma download_split_prints_witness :
  download_file_from_sandbox
    (Mem.env (Ok (mkExecutionResult (lit "completed")
       [Mem.stdout (BASE64_START ++ nl); Mem.stdout (b64encode [x41; x42; x43] ++ nl);
        Mem.stdout (BASE64_END ++ nl)] None)))
    (lit "/tmp/chart.png") (lit "output/chart.png") Mem.empty
  = (Ok false, Mem.empty).
Proof.
  exact (download_split_prints
           (Mem.env (Ok (mkExecutionResult (lit "completed")
              [Mem.stdout (BASE64_START ++ nl); Mem.stdout (b64encode [x41; x42; x43] ++ nl);
               Mem.stdout (BASE64_END ++ nl)] None)))
           (lit "/tmp/chart.png") (lit "output/chart.png") Mem.empty Mem.empty
           (mkExecutionResult (lit "completed")
              [Mem.stdout (BASE64_START ++ nl); Mem.stdout (b64encode [x41; x42; x43] ++ nl);
               Mem.stdout (BASE64_END ++ nl)] None)
           [x41; x42; x43] eq_refl eq_refl).
Defined.

(** The [strip] before decoding never changes a payload that decodes as it
    stands: when the raw slice between the sentinels decodes to [content],
    so does the stripped one. *)
Theorem decoded_content_of_raw_slice (output : str) (i j : nat) (content : bytes) :
  find BASE64_START output = Some i ->
  find BASE64_END output = Some j ->
  b64decode (slice (i + List.length BASE64_START) j output) = Ok content ->
  decoded_content output = Ok content.
Proof.
  intros Hi Hj Hraw. unfold decoded_content, encoded_content, index.
  rewrite Hi, Hj. now apply b64decode_strip.
Qed.

Lemma decoded_content_of_raw_slice_witness :
  decoded_content (lit "BASE64_START  QUJD  BASE64_END") = Ok [x41; x42; x43].
Proof.
  exact (decoded_content_of_raw_slice (lit "BASE64_START  QUJD  BASE64_END")
           0 20 [x41; x42; x43] eq_refl eq_refl eq_refl).
Defined.

Lemma download_framed_file_witness :
  download_file_from_sandbox
    (Mem.env (Ok (mkExecutionResult (lit "completed")
       [Mem.stdout (framed_stdout [x0a; x00; xff; x0a])] None)))
    (lit "/tmp/chart.png") (lit "chart.png") Mem.empty
  = (Ok true, Mem.mkFS [(lit "chart.png", [x0a; x00; xff; x0a])] [lit "."]).
Proof.
  exact (download_framed_file
           (Mem.env (Ok (mkExecutionResult (lit "completed")
              [Mem.stdout (framed_stdout [x0a; x00; xff; x0a])] None)))
           (lit "/tmp/chart.png") (lit "chart.png")
           Mem.empty Mem.empty (Mem.mkFS [] [lit "."])
           (Mem.mkFS [(lit "chart.png", [x0a; x00; xff; x0a])] [lit "."])
           (mkExecutionResult (lit "completed")
              [Mem.stdout (framed_stdout [x0a; x00; xff; x0a])] None)
           [x0a; x00; xff; x0a] eq_refl eq_refl eq_refl eq_refl).
Defined.

Lemma loop_ignores_foreign (s : str) (quad_pos leftchar pads : N) (bin_data : bytes) :
  a2b_base64_loop (filter b64_char s) quad_pos leftchar pads bin_data
  = a2b_base64_loop s quad_pos leftchar pads bin_data.
Proof.
  revert quad_pos leftchar pads bin_data.
  induction s as [|c s IH]; intros quad_pos leftchar pads bin_data; [reflexivity|].
  cbn [filter]. unfold b64_char at 1.
  destruct (table_a2b_base64 c) as [v|] eqn:Htab.
  - cbn [a2b_base64_loop]. rewrite Htab.
    repeat match goal with
           | |- context [if ?b then _ else _] => destruct b
           end; rewrite ?IH; reflexivity.
  - destruct (c =? BASE64_PAD) eqn:Hpad.
    + cbn [a2b_base64_loop]. rewrite Hpad.
      repeat match goal with
             | |- context [if ?b then _ else _] => destruct b
             end; rewrite ?IH; reflexivity.
    + rewrite IH. cbn [a2b_base64_loop]. now rewrite Hpad, Htab.
Qed.

(** The decoder of the helper is lenient: in an ASCII payload every
    character outside the base64 alphabet and the padding character is
    skipped, so the payload decodes, or fails to, exactly as the payload with
    those characters removed. *)
Theorem b64decode_ignores_foreign_characters (payload : str) :
  forallb (fun c => c <? 128) payload = true ->
  b64decode payload = b64decode (filter b64_char payload).
Proof.
  intros Hascii. unfold b64decode. rewrite Hascii.
  assert (Hf : forallb (fun c => c <? 128) (filter b64_char payload) = true).
  { rewrite forallb_forall in *. intros c Hc. apply filter_In in Hc as [Hc _].
    now apply Hascii. }
  rewrite Hf. now rewrite loop_ignores_foreign.
Qed.

Lemma b64decode_ignores_foreign_characters_witness :
  b64decode (lit "Q-U J*D!") = b64decode (lit "QUJD").
Proof.
  exact (b64decode_ignores_foreign_characters (lit "Q-U J*D!") eq_refl).
Defined.

Lemma save_result_reports_length_only_witness :
  save_result (lit "report.txt") (lit "abc") = save_result (lit "report.txt") (lit "xyz").
Proof.
  exact (proj2 (save_result_reports_length_only (lit "report.txt") (lit "abc") (lit "xyz"))
           eq_refl).
Defined.

(* ================================================================== *)
(** ** The chart tool *)

Lemma fold_collect_stderr (items : list OutputItem) (acc : list str) :
  fold_left collect_stderr items acc = acc ++ stderr_items items.
Proof.
  revert acc. induction items as [|i items IH]; intros acc; simpl.
  - now rewrite app_nil_r.
  - unfold stderr_items in *. simpl. unfold collect_stderr at 2. fold (is_stderr i).
    destruct (is_stderr i); rewrite IH; simpl; [now rewrite <- app_assoc | reflexivity].
Qed.

Lemma analyze_reply (E : Env) (str_lower : str -> str) (format_exc : PyException -> str)
    (csv_content : option str) (chart_type analysis_description output_filename : str)
    (w w' : World E) (r : ExecutionResult) :
  execute E (chart_code str_lower csv_content chart_type analysis_description output_filename)
    (lit "python") false w = (Ok r, w') ->
  analyze_data_and_create_chart E str_lower format_exc csv_content chart_type
    analysis_description output_filename w
  = (Ok (if is_failure (status r)
         then chart_cross ++ lit " Execution failed: " ++ status r ++ nl
              ++ join nl (stderr_items (outputs r))
         else chart_success_text (stdout_items (outputs r)) (stderr_items (outputs r))),
     w').
Proof.
  intros H. unfold analyze_data_and_create_chart, try_except, bind. rewrite H.
  destruct (is_failure (status r)).
  - now rewrite fold_collect_stderr.
  - rewrite fold_collect. cbn [app]. unfold chart_success_text, ret.
    destruct (truthy (stdout_items (outputs r))), (truthy (stderr_items (outputs r)));
      rewrite ?app_nil_r; reflexivity.
Qed.

(** On a reply whose status is "error" or "failed" the chart tool, unlike
    the other adapters, hands the stderr data on: it returns the cross mark,
    " Execution failed: ", the status and, on the following lines, the
    stderr data in order.  The stdout data is dropped. *)
Theorem chart_failure_keeps_stderr (E : Env) (str_lower : str -> str)
    (format_exc : PyException -> str) (csv_content : option str)
    (chart_type analysis_description output_filename : str)
    (w w' : World E) (r : ExecutionResult) :
  execute E (chart_code str_lower csv_content chart_type analysis_description output_filename)
    (lit "python") false w = (Ok r, w') ->
  status r = lit "error" \/ status r = lit "failed" ->
  analyze_data_and_create_chart E str_lower format_exc csv_content chart_type
    analysis_description output_filename w
  = (Ok (chart_cross ++ lit " Execution failed: " ++ status r ++ nl
         ++ join nl (stderr_items (outputs r))), w').
Proof.
  intros Hcall Hst.
  rewrite (analyze_reply E str_lower format_exc _ _ _ _ w w' r Hcall).
  now rewrite (failing_is_failure _ Hst).
Qed.

Lemma chart_failure_keeps_stderr_witness :
  analyze_data_and_create_chart
    (Mem.env (Ok (mkExecutionResult (lit "failed")
       [Mem.stdout (lit "loading"); Mem.stderr (lit "Traceback"); Mem.stderr (lit "KeyError")]
       None)))
    (fun s => s) (fun _ => lit "tb") (Some (lit "a,b")) (lit "bar") (lit "by region")
    (lit "r.png") Mem.empty
  = (Ok (chart_cross ++ lit " Execution failed: failed" ++ nl
         ++ lit "Traceback" ++ nl ++ lit "KeyError"), Mem.empty).
Proof.
  exact (chart_failure_keeps_stderr
           (Mem.env (Ok (mkExecutionResult (lit "failed")
              [Mem.stdout (lit "loading"); Mem.stderr (lit "Traceback");
               Mem.stderr (lit "KeyError")] None)))
           (fun s => s) (fun _ => lit "tb") (Some (lit "a,b")) (lit "bar")
           (lit "by region") (lit "r.png") Mem.empty Mem.empty
           (mkExecutionResult (lit "failed")
              [Mem.stdout (lit "loading"); Mem.stderr (lit "Traceback");
               Mem.stderr (lit "KeyError")] None)
           eq_refl (or_intror eq_refl)).
Defined.

(** For a reply with a non-failing status the chart tool announces success
    exactly when the reply has stdout data, whatever the status is; without
    stdout data it returns the "no analysis output captured" text.  In both
    cases the stderr data, if there is any, follows after a blank line under
    the heading " Warnings/Errors:". *)
Theorem chart_success_shape (E : Env) (str_lower : str -> str)
    (format_exc : PyException -> str) (csv_content : option str)
    (chart_type analysis_description output_filename : str)
    (w w' : World E) (r : ExecutionResult) :
  execute E (chart_code str_lower csv_content chart_type analysis_description output_filename)
    (lit "python") false w = (Ok r, w') ->
  non_failing r ->
  analyze_data_and_create_chart E str_lower format_exc csv_content chart_type
    analysis_description output_filename w
  = (Ok ((if truthy (stdout_items (outputs r))
          then chart_check ++ lit " Chart created successfully!" ++ nl ++ nl
               ++ join nl (stdout_items (outputs r))
          else chart_warning ++ lit " Chart created but no analysis output captured.")
         ++ (if truthy (stderr_items (outputs r))
             then nl ++ nl ++ chart_warning ++ lit " Warnings/Errors:" ++ nl
                  ++ join nl (stderr_items (outputs r))
             else [])), w').
Proof.
  intros Hcall Hst.
  rewrite (analyze_reply E str_lower format_exc _ _ _ _ w w' r Hcall).
  now rewrite (non_failing_is_failure r Hst).
Qed.

Lemma chart_success_shape_witness :
  analyze_data_and_create_chart
    (Mem.env (Ok (mkExecutionResult (lit "running")
       [Mem.stderr (lit "FutureWarning"); Mem.stdout (lit "North: 1"); Mem.stdout (lit "ok")]
       None)))
    (fun s => s) (fun _ => lit "tb") (Some (lit "a,b")) (lit "bar") (lit "by region")
    (lit "r.png") Mem.empty
  = (Ok (chart_check ++ lit " Chart created successfully!" ++ nl ++ nl
         ++ lit "North: 1" ++ nl ++ lit "ok"
         ++ nl ++ nl ++ chart_warning ++ lit " Warnings/Errors:" ++ nl ++ lit "FutureWarning"),
     Mem.empty).
Proof.
  refine (chart_success_shape
            (Mem.env (Ok (mkExecutionResult (lit "running")
               [Mem.stderr (lit "FutureWarning"); Mem.stdout (lit "North: 1");
                Mem.stdout (lit "ok")] None)))
            (fun s => s) (fun _ => lit "tb") (Some (lit "a,b")) (lit "bar")
            (lit "by region") (lit "r.png") Mem.empty Mem.empty
            (mkExecutionResult (lit "running")
               [Mem.stderr (lit "FutureWarning"); Mem.stdout (lit "North: 1");
                Mem.stdout (lit "ok")] None)
            eq_refl _).
  split; discriminate.
Defined.

(** On every path the chart tool makes exactly one request, with its
    generated script, in Python, networking off, also when the data variable
    is still unset.  It returns a text when the remote call returns a result;
    when the call raises an instance of [Exception], the text is the cross
    mark, " Error: ", the message of the exception and, on the next line,
    the traceback; a signal outside [Exception] raised by the call passes
    the handler and reaches the caller. *)
Theorem chart_one_request_on_every_path (E : Env) (str_lower : str -> str)
    (format_exc : PyException -> str) (csv_content : option str)
    (chart_type analysis_description output_filename : str)
    (w : World E) (log : list Event) :
  analyze_data_and_create_chart (logged E) str_lower format_exc csv_content chart_type
    analysis_description output_filename (w, log)
  = (fst (analyze_data_and_create_chart E str_lower format_exc csv_content chart_type
            analysis_description output_filename w),
     (snd (analyze_data_and_create_chart E str_lower format_exc csv_content chart_type
             analysis_description output_filename w),
      log ++ [Request (chart_code str_lower csv_content chart_type
                         analysis_description output_filename)
                (lit "python") false]))
  /\ (forall (r : ExecutionResult) (w1 : World E),
        execute E (chart_code str_lower csv_content chart_type analysis_description
                     output_filename) (lit "python") false w = (Ok r, w1) ->
        exists text : str,
          analyze_data_and_create_chart E str_lower format_exc csv_content chart_type
            analysis_description output_filename w = (Ok text, w1))
  /\ (forall (e : PyException) (w1 : World E),
        execute E (chart_code str_lower csv_content chart_type analysis_description
                     output_filename) (lit "python") false w = (Raise e, w1) ->
        analyze_data_and_create_chart E str_lower format_exc csv_content chart_type
          analysis_description output_filename w
        = (Ok (chart_cross ++ lit " Error: " ++ exc_str e ++ nl ++ format_exc e), w1))
  /\ (forall (s : PySignal) (w1 : World E),
        execute E (chart_code str_lower csv_content chart_type analysis_description
                     output_filename) (lit "python") false w = (Abort s, w1) ->
        analyze_data_and_create_chart E str_lower format_exc csv_content chart_type
          analysis_description output_filename w = (Abort s, w1)).
Proof.
  split; [|split; [|split]].
  - unfold analyze_data_and_create_chart, try_except, bind.
    cbn [execute logged fst snd].
    destruct (execute E _ (lit "python") false w) as [[r | e | s] w1];
      [|reflexivity|reflexivity].
    destruct (is_failure (status r)); [reflexivity|].
    destruct (fold_left collect (outputs r) ([], [])) as [out err]. reflexivity.
  - intros r w1 Hcall.
    rewrite (analyze_reply E str_lower format_exc _ _ _ _ w w1 r Hcall).
    eexists. reflexivity.
  - intros e w1 Hcall.
    unfold analyze_data_and_create_chart, try_except, bind. now rewrite Hcall.
  - intros s w1 Hcall.
    unfold analyze_data_and_create_chart, try_except, bind. now rewrite Hcall.
Qed.

Lemma chart_one_request_on_every_path_witness :
  analyze_data_and_create_chart
    (Mem.env (Raise (mkException "TimeoutError" (lit "timed out"))))
    (fun s => s) (fun _ => lit "Traceback") None (lit "bar") (lit "by region")
    (lit "r.png") Mem.empty
  = (Ok (chart_cross ++ lit " Error: timed out" ++ nl ++ lit "Traceback"), Mem.empty)
  /\ analyze_data_and_create_chart (Mem.env (Abort Mem.keyboard_interrupt))
       (fun s => s) (fun _ => lit "Traceback") None (lit "bar") (lit "by region")
       (lit "r.png") Mem.empty
     = (Abort Mem.keyboard_interrupt, Mem.empty).
Proof.
  split.
  - exact (proj1 (proj2 (proj2 (chart_one_request_on_every_path
             (Mem.env (Raise (mkException "TimeoutError" (lit "timed out"))))
             (fun s => s) (fun _ => lit "Traceback") None (lit "bar") (lit "by region")
             (lit "r.png") Mem.empty [])))
           (mkException "TimeoutError" (lit "timed out")) Mem.empty eq_refl).
  - exact (proj2 (proj2 (proj2 (chart_one_request_on_every_path
             (Mem.env (Abort Mem.keyboard_interrupt))
             (fun s => s) (fun _ => lit "Traceback") None (lit "bar") (lit "by region")
             (lit "r.png") Mem.empty [])))
           Mem.keyboard_interrupt Mem.empty eq_refl).
Defined.

(** Peeling a text off the front of a concatenation. *)
Lemma app_peel (e a x t : str) : t = a ++ x -> e ++ t = (e ++ a) ++ x.
Proof. intros ->. apply app_assoc. Qed.

Lemma app_nil_start (x t : str) : t = x -> t = [] ++ x.
Proof. intros ->. reflexivity. Qed.

Lemma contains_mid (p s a b : str) : s = a ++ p ++ b -> contains p s = true.
Proof. intros ->. apply contains_app. Qed.

Ltac find_in_chain :=
  repeat first [ solve [apply app_nil_start; rewrite <- ?app_assoc; reflexivity]
               | eapply app_peel ].

Lemma app_split_tail (whole pre x post mid tail : str) :
  whole = pre ++ x ++ post -> post = mid ++ tail -> whole = pre ++ x ++ mid ++ tail.
Proof. intros -> ->. reflexivity. Qed.

(** The text of the generated script holds the chart type at one place
    only, pasted as it is given (nothing is escaped) after "# Chart type: ":
    the script is a head, that label, the chart type, a middle part, the
    chart block selected from the description and the save block of the
    output file, and none of these other parts is a function of the chart
    type. *)
Theorem chart_type_only_labels (str_lower : str -> str) (csv_content : option str)
    (analysis_description output_filename : str) :
  exists pre mid : str,
    forall chart_type : str,
      chart_code str_lower csv_content chart_type analysis_description output_filename
      = pre ++ lit "# Chart type: " ++ chart_type ++ mid
        ++ chart_body str_lower analysis_description
        ++ chart_save_block output_filename.
Proof.
  eexists; eexists; intros chart_type.
  unfold chart_code, chart_preamble. cbn [join]. rewrite <- !app_assoc.
  eapply (app_split_tail _ _ (lit "# Chart type: " ++ chart_type)).
  - rewrite <- !app_assoc. find_in_chain.
  - find_in_chain.
Qed.

(** The text of the generated script contains the call that saves the
    figure with the path "/tmp/" followed by the output file name, and the
    text of the script of the file-transfer helper for that path contains
    the existence test and the [open] of the same path: the name is pasted
    into all three between single quotes, as it is given (nothing is
    escaped). *)
Theorem chart_and_download_paths_agree (str_lower : str -> str)
    (csv_content : option str) (chart_type analysis_description output_filename : str) :
  contains (lit "plt.savefig('/tmp/" ++ output_filename ++ lit "'")
    (chart_code str_lower csv_content chart_type analysis_description output_filename)
  = true
  /\ contains (lit "os.path.exists('/tmp/" ++ output_filename ++ lit "')")
       (download_script (lit "/tmp/" ++ output_filename)) = true
  /\ contains (lit "open('/tmp/" ++ output_filename ++ lit "', 'rb')")
       (download_script (lit "/tmp/" ++ output_filename)) = true.
Proof.
  split; [|split]; eapply contains_mid.
  - unfold chart_code, chart_save_block. cbn [join].
    change (lit "', dpi=150, bbox_inches='tight', facecolor='white', format='png')")
      with (lit "'" ++ lit ", dpi=150, bbox_inches='tight', facecolor='white', format='png')").
    rewrite <- !app_assoc. find_in_chain.
  - unfold download_script, sq.
    change (lit "if not os.path.exists(")
      with (lit "if not " ++ lit "os.path.exists(").
    change (lit "os.path.exists('/tmp/") with (lit "os.path.exists(" ++ lit "'/tmp/").
    change [39] with (lit "'").
    change (lit "):") with (lit ")" ++ lit ":").
    change (lit "')") with (lit "'" ++ lit ")").
    change (lit "'/tmp/") with (lit "'" ++ lit "/tmp/").
    rewrite <- !app_assoc. find_in_chain.
  - unfold download_script, sq.
    change (lit "    with open(") with (lit "    with " ++ lit "open(").
    change (lit "open('/tmp/") with (lit "open(" ++ lit "'" ++ lit "/tmp/").
    change [39] with (lit "'").
    change (lit "', 'rb')") with (lit "'" ++ lit ", " ++ lit "'" ++ lit "rb" ++ lit "'" ++ lit ")").
    change (lit ") as f:") with (lit ")" ++ lit " as f:").
    rewrite <- !app_assoc. find_in_chain.
Qed.

(* ================================================================== *)
(** ** The box printer *)

Lemma str_split_not_nil (sep : N) (s : str) : str_split sep s <> [].
Proof.
  induction s as [|c s IH]; simpl; [discriminate|].
  destruct (c =? sep); [discriminate|].
  destruct (str_split sep s); [contradiction | discriminate].
Qed.




(** Splitting at newlines loses nothing: no line holds a newline, and the
    lines joined by newlines are the text again, so the rows of the box show
    the whole text. *)
Theorem str_split_join (text : str) :
  join nl (str_split 10 text) = text
  /\ Forall (fun line => ~ In 10 line) (str_split 10 text).
Proof.
  induction text as [|c text [IHj IHf]]; [split; [reflexivity | repeat constructor; auto]|].
  cbn [str_split]. pose proof (str_split_not_nil 10 text) as Hne.
  destruct (N.eqb_spec c 10) as [-> | Hc].
  - split.
    + destruct (str_split 10 text) as [|l ls]; [contradiction|].
      cbn [join]. cbn [join] in IHj. now rewrite IHj.
    + constructor; [intros [] | exact IHf].
  - destruct (str_split 10 text) as [|l ls]; [contradiction|]. split.
    + destruct ls; cbn [join] in *; now rewrite <- IHj.
    + inversion IHf; subst. constructor; [|assumption].
      intros [H | H]; [now apply Hc | contradiction].
Qed.

(* ================================================================== *)
(** ** The chat loop *)

(** A line that is blank after stripping, and a line that is one of the exit
    words after stripping and lowering, never reach the agent: the turn
    leaves the session as [input] left it and the count of tasks as it was;
    the first goes on with the loop, the second ends it. *)
Theorem chat_turn_without_agent (C : Console) (str_lower : str -> str)
    (tasks_completed : nat) (s s1 : Session C) (raw : str) :
  input C s = (Returns raw, s1) ->
  (Forall (fun c => isspace c = true) raw ->
   chat_turn C str_lower tasks_completed s = (Running tasks_completed, s1))
  /\ (strip raw <> [] ->
      str_in (str_lower (strip raw)) exit_words = true ->
      chat_turn C str_lower tasks_completed s = (Ended tasks_completed, s1)).
Proof.
  intros Hin. unfold chat_turn. rewrite Hin. split.
  - intros Hblank. unfold strip. rewrite (lstrip_all_spaces raw Hblank). reflexivity.
  - intros Hne Hexit. destruct (strip raw); [contradiction|].
    cbn [truthy negb]. now rewrite Hexit.
Qed.

Lemma chat_turn_without_agent_witness :
  chat_turn Script.console Script.lower 3 ([lit "   "; lit "hello"], [])
  = (Running 3, ([lit "hello"], []))
  /\ chat_turn Script.console Script.lower 3 ([lit "  QuIt "; lit "hello"], [])
     = (Ended 3, ([lit "hello"], [])).
Proof.
  split.
  - refine (proj1 (chat_turn_without_agent Script.console Script.lower 3
                     ([lit "   "; lit "hello"], []) ([lit "hello"], []) (lit "   ")
                     eq_refl) _).
    repeat constructor.
  - refine (proj2 (chat_turn_without_agent Script.console Script.lower 3
                     ([lit "  QuIt "; lit "hello"], []) ([lit "hello"], [])
                     (lit "  QuIt ") eq_refl) _ eq_refl).
    discriminate.
Defined.

(** An exception raised by [input] does not end the loop.  So when every
    read fails, as it does once the input has reached its end, the loop
    never ends: after any number of turns it is still running, with the
    count of tasks unchanged. *)
Theorem chat_loop_never_ends_when_reads_fail (C : Console) (str_lower : str -> str) :
  (forall s : Session C, exists (e : PyException) (s1 : Session C),
      input C s = (Throws (Exc e), s1)) ->
  forall (n tasks_completed : nat) (s : Session C),
    fst (chat_loop C str_lower n tasks_completed s) = Running tasks_completed.
Proof.
  intros Hfail n. induction n as [|n IH]; intros tc s; [reflexivity|].
  cbn [chat_loop]. unfold chat_turn.
  destruct (Hfail s) as (e & s1 & Hin). rewrite Hin. apply IH.
Qed.

Lemma chat_loop_never_ends_when_reads_fail_witness :
  fst (chat_loop (mkConsole Script.session
                    (fun s => (Throws (Exc Script.EOFError), s)) Script.agent)
         Script.lower 1000 2 ([], []))
  = Running 2.
Proof.
  refine (chat_loop_never_ends_when_reads_fail
            (mkConsole Script.session
               (fun s => (Throws (Exc Script.EOFError), s)) Script.agent)
            Script.lower _ 1000%nat 2%nat ([], [])).
  intros s. exists Script.EOFError, s. reflexivity.
Defined.

Lemma chat_turn_count (C : Console) (str_lower : str -> str) (tc : nat) (s : Session C) :
  (tc <= tasks_of (fst (chat_turn C str_lower tc s)) <= S tc)%nat.
Proof.
  unfold chat_turn.
  destruct (input C s) as [[raw | [e |]] s1]; cbn [fst tasks_of]; try lia.
  destruct (negb (truthy (strip raw))); cbn [fst tasks_of]; try lia.
  destruct (str_in (str_lower (strip raw)) exit_words); cbn [fst tasks_of]; try lia.
  destruct (run_agent C (strip raw) s1) as [[out | [e |]] s2]; cbn [fst tasks_of]; lia.
Qed.

(** The count of tasks never goes down and grows by at most one in a turn:
    after at most [n] turns it lies between its value at the start and that
    value plus [n]. *)
Theorem chat_loop_count_bounds (C : Console) (str_lower : str -> str)
    (n tasks_completed : nat) (s : Session C) :
  (tasks_completed
   <= tasks_of (fst (chat_loop C str_lower n tasks_completed s))
   <= tasks_completed + n)%nat.
Proof.
  revert tasks_completed s. induction n as [|n IH]; intros tc s.
  - cbn [chat_loop fst tasks_of]. lia.
  - cbn [chat_loop]. pose proof (chat_turn_count C str_lower tc s) as Hturn.
    destruct (chat_turn C str_lower tc s) as [[tc' | tc'] s1]; cbn [fst tasks_of] in *.
    + specialize (IH tc' s1). lia.
    + lia.
Qed.
